(** * currents_news_client: a shallow embedding and its specification

    The development follows the layout of the Python package:
    - [Types]       : [types.py], the constants and message table;
    - [Exceptions]  : [exceptions.py], the typed error family;
    - [Models]      : [models.py], the response schema;
    - [Client]      : [client.py], validator, error handler, transport, facade.

    Python [str] values are byte strings here (UTF-8 encoded text); Python
    [int] values are [Z].  The network, the builtin [int] and the schema
    library's field validators are not code of the package: they are
    variables of the sections that use them. *)

From Stdlib Require Import ZArith String Ascii List Lia DecimalString DecimalZ.
From stdpp Require Import base numbers option list strings gmap.

Local Open Scope Z_scope.
#[local] Set Warnings "-register-all,-notation-for-abbreviation".

(** ** JSON values, as [response.json()] returns them *)

Inductive JSON : Type :=
| JNull
| JBool (b : bool)
| JInt (n : Z)
| JFloat (literal : string)
| JString (s : string)
| JArray (items : list JSON)
| JObject (members : list (string * JSON)).

(** [isinstance(v, dict)] *)
Definition is_dict (v : JSON) : bool :=
  match v with JObject _ => true | _ => false end.

(** [d.get(k)] on the members of a JSON object. *)
Fixpoint dict_get (k : string) (d : list (string * JSON)) : option JSON :=
  match d with
  | [] => None
  | (k', v) :: d' => if String.eqb k k' then Some v else dict_get k d'
  end.

(** [str(n)] for a Python integer. *)
Definition str_of_int (n : Z) : string :=
  NilEmpty.string_of_int (Z.to_int n).

(** [needle in haystack] for Python strings. *)
Fixpoint prefix_of (p s : string) : bool :=
  match p, s with
  | EmptyString, _ => true
  | String a p', String b s' => Ascii.eqb a b && prefix_of p' s'
  | String _ _, EmptyString => false
  end.

Fixpoint contains (needle hay : string) : bool :=
  prefix_of needle hay ||
  match hay with
  | EmptyString => false
  | String _ hay' => contains needle hay'
  end.

(** ** types.py *)

Module Types.

Definition SUPPORTED_LANGUAGES : list string :=
  ["en"; "es"; "fr"; "de"; "it"; "pt"; "ru"; "ar"; "hi"; "zh"; "ja"; "ko";
   "th"; "vi"].

Definition SUPPORTED_CATEGORIES : list string :=
  ["world"; "politics"; "business"; "technology"; "sports"; "entertainment";
   "health"; "science"; "regional"; "hardware"; "lifestyle"; "travel"].

Definition DEFAULT_LANGUAGE : string := "en".
Definition DEFAULT_LIMIT : Z := 20.
Definition MAX_LIMIT : Z := 100.
Definition MIN_LIMIT : Z := 1.

Definition LATEST_NEWS_ENDPOINT : string := "/latest-news".
Definition SEARCH_ENDPOINT : string := "/search".

Definition _LANGUAGE_SUPPORT_MSG : string :=
  "Invalid language code. Supported: en, es, fr, de, it, pt, ru," +:+ " " +:+
  "ar, hi, zh, ja, ko, th, vi".

Definition _CATEGORY_SUPPORT_MSG : string :=
  "Invalid category. Supported: world, politics, business," +:+ " " +:+
  "technology, sports, entertainment, health, science, regional," +:+ " " +:+
  "hardware, lifestyle, travel".

(** The keys of the [ERROR_MESSAGES] mapping. *)
Inductive MessageKey : Type :=
| invalid_api_key
| rate_limit_exceeded
| invalid_parameters
| server_error
| connection_error
| invalid_response
| missing_required_field
| invalid_language
| invalid_category
| limit_out_of_range.

Definition ERROR_MESSAGES (k : MessageKey) : string :=
  match k with
  | invalid_api_key => "Invalid API key provided"
  | rate_limit_exceeded => "API rate limit exceeded. Please try again later."
  | invalid_parameters => "Invalid request parameters provided"
  | server_error => "API server error. Please try again later."
  | connection_error => "Failed to connect to Currents API"
  | invalid_response => "Invalid response from API"
  | missing_required_field => "Missing required field: {field}"
  | invalid_language => _LANGUAGE_SUPPORT_MSG
  | invalid_category => _CATEGORY_SUPPORT_MSG
  | limit_out_of_range => "Limit must be between 1 and 100"
  end.

End Types.

(** ** exceptions.py *)

Module Exceptions.

Definition HTTP401 : Z := 401.
Definition HTTP400 : Z := 400.
Definition HTTP429 : Z := 429.
Definition HTTP500 : Z := 500.

(** The exception class of an instance.  [GenericAPI] is the base class
    [CurrentsAPIError] itself. *)
Inductive ErrorKind : Type :=
| Authentication
| RateLimit
| Validation
| Server
| Connection
| Response
| GenericAPI.

#[export] Instance ErrorKind_eq_dec : EqDecision ErrorKind.
Proof. solve_decision. Defined.

(** An instance of the family.  [retry_after] is an attribute of
    [CurrentsRateLimitError] only and [field] of [CurrentsValidationError]
    only; on the other classes they are [None] here. *)
Record CurrentsError : Type := mkCurrentsError {
  kind : ErrorKind;
  message : string;
  status_code : option Z;
  response_data : list (string * JSON);
  retry_after : option Z;
  field : option string;
}.

(** [CurrentsAPIError.__init__], with the class of the instance made
    explicit; [response_data or {}]. *)
Definition base_init (k : ErrorKind) (msg : string) (sc : option Z)
    (rd : option (list (string * JSON))) : CurrentsError :=
  {| kind := k; message := msg; status_code := sc;
     response_data := default [] rd;
     retry_after := None; field := None |}.

Definition CurrentsAPIError (msg : string) (sc : option Z)
    (rd : option (list (string * JSON))) : CurrentsError :=
  base_init GenericAPI msg sc rd.

Definition CurrentsAuthenticationError (msg : string) : CurrentsError :=
  base_init Authentication msg (Some HTTP401) None.

Definition CurrentsRateLimitError (msg : string) (ra : option Z)
    : CurrentsError :=
  let self := base_init RateLimit msg (Some HTTP429) None in
  {| kind := kind self; message := message self;
     status_code := status_code self; response_data := response_data self;
     retry_after := ra; field := field self |}.

Definition CurrentsValidationError (msg : string) (fld : option string)
    : CurrentsError :=
  let self := base_init Validation msg (Some HTTP400) None in
  {| kind := kind self; message := message self;
     status_code := status_code self; response_data := response_data self;
     retry_after := retry_after self; field := fld |}.

Definition CurrentsServerError (msg : string) : CurrentsError :=
  base_init Server msg (Some HTTP500) None.

Definition CurrentsConnectionError (msg : string) : CurrentsError :=
  base_init Connection msg None None.

Definition CurrentsResponseError (msg : string) : CurrentsError :=
  base_init Response msg None None.

(** The status code each class passes to the base initialiser; the base
    class is raised by the client without one. *)
Definition status_of_kind (k : ErrorKind) : option Z :=
  match k with
  | Authentication => Some 401
  | RateLimit => Some 429
  | Validation => Some 400
  | Server => Some 500
  | Connection | Response | GenericAPI => None
  end.

End Exceptions.

(** ** models.py *)

Module Models.

(** [datetime.datetime]: the fields of the parsed timestamp; [tzoffset] is
    the UTC offset in seconds of an aware value, [None] for a naive one. *)
Record datetime : Type := mkDatetime {
  year : Z; month : Z; day : Z;
  hour : Z; minute : Z; second : Z; microsecond : Z;
  tzoffset : option Z;
}.

Record NewsArticle : Type := mkNewsArticle {
  id : string;
  title : string;
  description : string;
  url : string;
  author : option string;
  image : option string;
  language : string;
  category : list string;
  published : datetime;
}.

Record NewsResponse : Type := mkNewsResponse {
  status : string;
  news : list NewsArticle;
}.

(** The [total_count] property. *)
Definition total_count (self : NewsResponse) : Z :=
  Z.of_nat (length (news self)).

(** *** What the schema library reports

    A failed model construction raises the library's [ValidationError],
    which carries one entry per rejected field: the location of the field
    (a path of keys and list indices) and whether the field was missing or
    its value was rejected. *)

Inductive LocItem : Type :=
| LKey (k : string)
| LIdx (i : nat).

Inductive ErrorType : Type :=
| missing
| invalid.

Record ErrorDetails : Type := mkErrorDetails {
  loc : list LocItem;
  type : ErrorType;
}.

#[export] Instance LocItem_eq_dec : EqDecision LocItem.
Proof. solve_decision. Defined.
#[export] Instance ErrorType_eq_dec : EqDecision ErrorType.
Proof. solve_decision. Defined.
#[export] Instance ErrorDetails_eq_dec : EqDecision ErrorDetails.
Proof. solve_decision. Defined.

(** Validation collects the errors of all fields: either the list of
    errors (never empty) or the validated value. *)
Definition V (A : Type) : Type := list ErrorDetails + A.

Definition v_map {A B} (f : A -> B) (x : V A) : V B :=
  match x with
  | inl es => inl es
  | inr a => inr (f a)
  end.

Definition v_ap {A B} (f : V (A -> B)) (x : V A) : V B :=
  match f, x with
  | inr g, inr a => inr (g a)
  | inr _, inl es => inl es
  | inl es, inr _ => inl es
  | inl es1, inl es2 => inl (es1 ++ es2)
  end.

Infix "<*>" := v_ap (at level 61, left associativity).

Definition under (l : LocItem) (e : ErrorDetails) : ErrorDetails :=
  {| loc := l :: loc e; type := type e |}.

Definition at_loc {A} (l : LocItem) (x : V A) : V A :=
  match x with
  | inl es => inl (map (under l) es)
  | inr a => inr a
  end.

Definition leaf {A} (validate : JSON -> option A) (v : JSON) : V A :=
  match validate v with
  | Some a => inr a
  | None => inl [ {| loc := []; type := invalid |} ]
  end.

(** A field declared with [Field(...)]: required. *)
Definition required {A} (name : string) (validate : JSON -> V A)
    (d : list (string * JSON)) : V A :=
  match dict_get name d with
  | None => inl [ {| loc := [LKey name]; type := missing |} ]
  | Some v => at_loc (LKey name) (validate v)
  end.

(** A field declared with a default. *)
Definition defaulted {A} (name : string) (dflt : A) (validate : JSON -> V A)
    (d : list (string * JSON)) : V A :=
  match dict_get name d with
  | None => inr dflt
  | Some v => at_loc (LKey name) (validate v)
  end.

(** [Optional[T]]: [None] is accepted as it is. *)
Definition optional {A} (validate : JSON -> V A) (v : JSON) : V (option A) :=
  match v with
  | JNull => inr None
  | _ => v_map Some (validate v)
  end.

Fixpoint validate_items {A} (validate : JSON -> V A) (i : nat)
    (items : list JSON) : V (list A) :=
  match items with
  | [] => inr []
  | x :: rest =>
      v_map cons (at_loc (LIdx i) (validate x))
        <*> validate_items validate (S i) rest
  end.

(** [List[T]] *)
Definition list_of {A} (validate : JSON -> V A) (v : JSON) : V (list A) :=
  match v with
  | JArray items => validate_items validate 0 items
  | _ => inl [ {| loc := []; type := invalid |} ]
  end.

Section Schema.

(** The library's validators for the scalar field types of the models:
    [None] when the value is rejected. *)
Variable validate_str : JSON -> option string.
Variable validate_HttpUrl : JSON -> option string.
Variable validate_datetime : JSON -> option datetime.

(** The [NewsArticle] constructor on the members [d], fields in declaration order. *)
Definition NewsArticle_fields (d : list (string * JSON)) : V NewsArticle :=
  inr mkNewsArticle
    <*> required "id" (leaf validate_str) d
    <*> required "title" (leaf validate_str) d
    <*> required "description" (leaf validate_str) d
    <*> required "url" (leaf validate_HttpUrl) d
    <*> defaulted "author" None (optional (leaf validate_str)) d
    <*> defaulted "image" None (optional (leaf validate_str)) d
    <*> required "language" (leaf validate_str) d
    <*> defaulted "category" [] (list_of (leaf validate_str)) d
    <*> required "published" (leaf validate_datetime) d.

(** An item of [news] must be an object. *)
Definition NewsArticle_validate (v : JSON) : V NewsArticle :=
  match v with
  | JObject d => NewsArticle_fields d
  | _ => inl [ {| loc := []; type := invalid |} ]
  end.

Definition NewsResponse_fields (d : list (string * JSON)) : V NewsResponse :=
  inr mkNewsResponse
    <*> required "status" (leaf validate_str) d
    <*> required "news" (list_of NewsArticle_validate) d.

(** *** Well-formed input of the mapper

    Every required field is present and accepted by the validator of its
    type; a field with a default is absent or accepted. *)

Definition accepts {A} (validate : JSON -> option A) (v : JSON) : bool :=
  match validate v with
  | Some _ => true
  | None => false
  end.

Definition present_ok (check : JSON -> bool) (name : string)
    (d : list (string * JSON)) : bool :=
  match dict_get name d with
  | Some v => check v
  | None => false
  end.

Definition absent_or (check : JSON -> bool) (name : string)
    (d : list (string * JSON)) : bool :=
  match dict_get name d with
  | Some v => check v
  | None => true
  end.

Definition null_or (check : JSON -> bool) (v : JSON) : bool :=
  match v with
  | JNull => true
  | _ => check v
  end.

Definition array_of (check : JSON -> bool) (v : JSON) : bool :=
  match v with
  | JArray items => forallb check items
  | _ => false
  end.

Definition well_formed_article (v : JSON) : bool :=
  match v with
  | JObject d =>
      present_ok (accepts validate_str) "id" d
      && present_ok (accepts validate_str) "title" d
      && present_ok (accepts validate_str) "description" d
      && present_ok (accepts validate_HttpUrl) "url" d
      && absent_or (null_or (accepts validate_str)) "author" d
      && absent_or (null_or (accepts validate_str)) "image" d
      && present_ok (accepts validate_str) "language" d
      && absent_or (array_of (accepts validate_str)) "category" d
      && present_ok (accepts validate_datetime) "published" d
  | _ => false
  end.

Definition well_formed_response (d : list (string * JSON)) : bool :=
  present_ok (accepts validate_str) "status" d
  && present_ok (array_of well_formed_article) "news" d.

End Schema.

(** The fields of [NewsArticle] declared without a default. *)
Definition REQUIRED_FIELDS : list string :=
  ["id"; "title"; "description"; "url"; "language"; "published"].

(** The errors of a validation; none when it succeeded. *)
Definition v_errors {A} (x : V A) : list ErrorDetails :=
  match x with
  | inl es => es
  | inr _ => []
  end.

Definition v_failed {A} (x : V A) : bool :=
  match x with
  | inl _ => true
  | inr _ => false
  end.

End Models.

(** ** The HTTP library, as far as the client uses it *)

Module Requests.

(** [s.lower()] on a header name; header names are ASCII. *)
Definition lower_char (c : ascii) : ascii :=
  let n := nat_of_ascii c in
  if (65 <=? n)%nat && (n <=? 90)%nat then ascii_of_nat (n + 32) else c.

Fixpoint lower (s : string) : string :=
  match s with
  | EmptyString => EmptyString
  | String c s' => String (lower_char c) (lower s')
  end.

(** [requests.structures.CaseInsensitiveDict], the type of
    [response.headers]: the store maps the lowered key to the key as it was
    set and the value.  Lookup [d !! key] is [d.get(key)], insertion
    [<[key := v]> d] is [d[key] = v]; both lower the key. *)
Record CaseInsensitiveDict : Type := mkCaseInsensitiveDict {
  _store : gmap string (string * string);
}.

#[global] Instance CaseInsensitiveDict_lookup
    : Lookup string string CaseInsensitiveDict :=
  λ key d, snd <$> (_store d !! lower key).

#[global] Instance CaseInsensitiveDict_empty : Empty CaseInsensitiveDict :=
  {| _store := ∅ |}.

#[global] Instance CaseInsensitiveDict_insert
    : Insert string string CaseInsensitiveDict :=
  λ key v d, {| _store := <[lower key := (key, v)]> (_store d) |}.

#[global] Instance CaseInsensitiveDict_singleton
    : SingletonM string string CaseInsensitiveDict :=
  λ key v, <[key := v]> ∅.

(** A received response: [json] is what [response.json()] returns, [None]
    when it raises [ValueError]. *)
Record Response : Type := mkResponse {
  status_code : Z;
  reason : string;
  headers : CaseInsensitiveDict;
  json : option JSON;
}.

(** [response.raise_for_status()] raises [HTTPError] for the statuses 400
    to 599 and returns for all others. *)
Definition raise_for_status_raises (r : Response) : bool :=
  (400 <=? status_code r) && (status_code r <? 600).

(** A query-parameter value. *)
Inductive ParamValue : Type :=
| PStr (s : string)
| PInt (n : Z).

Record Session : Type := mkSession {
  params : gmap string string;
}.

(** One [session.get(url, params=..., timeout=...)]. *)
Record GetCall : Type := mkGetCall {
  get_session : Session;
  get_url : string;
  get_params : option (gmap string ParamValue);
  get_timeout : Z;
}.

End Requests.

(** ** client.py *)

Module Client.

Import Types Exceptions Models.

Definition HTTP401 : Z := 401.
Definition HTTP400 : Z := 400.
Definition HTTP429 : Z := 429.
Definition HTTP500 : Z := 500.
Definition REQUEST_TIMEOUT : Z := 30.

(** *** Exceptions and effects *)

(** What a call of the client can raise: a member of the typed family, the
    schema library's validation error, or an exception of a builtin that
    the client does not catch, given by the name of its class. *)
Inductive Exception : Type :=
| Currents (e : CurrentsError)
| PydanticValidationError (errors : list ErrorDetails)
| Builtin (name : string).

Inductive Result (A : Type) : Type :=
| Ok (a : A)
| Raise (e : Exception).
Arguments Ok {A} a.
Arguments Raise {A} e.

#[export] Instance Result_ret : MRet Result := λ A a, Ok a.
#[export] Instance Result_bind : MBind Result := λ A B f m,
  match m with
  | Ok a => f a
  | Raise e => Raise e
  end.

(** What the outside world observes of a run, in order. *)
Inductive Event : Type :=
| EvGet (call : Requests.GetCall)
| EvSleep (seconds : Z).

Record World : Type := mkWorld {
  environ : gmap string string;
  trace : list Event;
}.

(** The number of network calls among the events. *)
Definition is_get (ev : Event) : bool :=
  match ev with
  | EvGet _ => true
  | EvSleep _ => false
  end.

Definition get_count (evs : list Event) : nat :=
  length (List.filter is_get evs).

Definition emit (ev : Event) (w : World) : World :=
  {| environ := environ w; trace := trace w ++ [ev] |}.

(** Effectful code: state passing over the world, with exceptions. *)
Definition M (A : Type) : Type := World -> Result A * World.

#[export] Instance M_ret : MRet M := λ A a w, (Ok a, w).
#[export] Instance M_bind : MBind M := λ A B f m w,
  match m w with
  | (Ok a, w') => f a w'
  | (Raise e, w') => (Raise e, w')
  end.

Definition lift {A} (r : Result A) : M A := λ w, (r, w).
Definition raise {A} (e : CurrentsError) : Result A := Raise (Currents e).

(** [os.getenv(name)] *)
Definition getenv (name : string) : M (option string) :=
  λ w, (Ok (environ w !! name), w).

(** The largest number of whole seconds [time.sleep] accepts: the time in
    nanoseconds is a signed 64-bit integer. *)
Definition SLEEP_MAX : Z := 9223372036.

(** [time.sleep(seconds)] for an integer: [OverflowError] when the time
    does not fit, [ValueError] when it is negative. *)
Definition sleep (seconds : Z) : M unit :=
  λ w,
    if (seconds <? - SLEEP_MAX) || (SLEEP_MAX <? seconds) then
      (Raise (Builtin "OverflowError"), w)
    else if seconds <? 0 then (Raise (Builtin "ValueError"), w)
    else (Ok tt, emit (EvSleep seconds) w).

(** Truth value of an [Optional[str]]: [None] and the empty string are
    false. *)
Definition truthy (s : option string) : bool :=
  match s with
  | Some (String _ _) => true
  | _ => false
  end.

(** [a or b] on [Optional[str]] values: [b] is evaluated only when [a] is
    false. *)
Definition py_or (a : option string) (b : M (option string))
    : M (option string) :=
  if truthy a then mret a else b.

(** [range(n)] *)
Definition range (n : Z) : list Z := map Z.of_nat (seq 0 (Z.to_nat n)).

(** [s.rstrip(c)] for a one-character set. *)
Fixpoint rstrip (c : ascii) (s : string) : string :=
  match s with
  | EmptyString => EmptyString
  | String a s' =>
      match rstrip c s' with
      | EmptyString => if Ascii.eqb a c then EmptyString else String a EmptyString
      | r => String a r
      end
  end.

(** [s.endswith(c)] for one character, and [c * n]. *)
Fixpoint ends_with (c : ascii) (s : string) : bool :=
  match s with
  | EmptyString => false
  | String a EmptyString => Ascii.eqb a c
  | String _ s' => ends_with c s'
  end.

Fixpoint repeat_char (c : ascii) (n : nat) : string :=
  match n with
  | O => EmptyString
  | S n' => String c (repeat_char c n')
  end.

(** An error carries the status code of its class. *)
Definition well_coded (e : CurrentsError) : Prop :=
  status_code e = status_of_kind (kind e).

(** A result raises nothing but well-coded members of the family. *)
Definition raises_well_coded {A} (r : Result A) : Prop :=
  match r with
  | Raise (Currents e) => well_coded e
  | _ => True
  end.

(** *** _ParameterValidator *)

Definition validate_language (language : string) : Result unit :=
  let valid_languages :=
    ["en"; "es"; "fr"; "de"; "it"; "pt"; "ru"; "ar"; "hi"; "zh"; "ja"; "ko";
     "th"; "vi"] in
  if negb (bool_decide (language ∈ valid_languages)) then
    (* the message has no replacement field: [format] returns it unchanged *)
    raise (CurrentsValidationError (ERROR_MESSAGES invalid_language) None)
  else Ok tt.

Definition validate_limit (limit : Z) : Result unit :=
  if (limit <? MIN_LIMIT) || (limit >? MAX_LIMIT) then
    raise (CurrentsValidationError (ERROR_MESSAGES limit_out_of_range) None)
  else Ok tt.

Definition validate_category (category : string) : Result unit :=
  let valid_categories :=
    ["world"; "politics"; "business"; "technology"; "sports";
     "entertainment"; "health"; "science"; "regional"; "hardware";
     "lifestyle"; "travel"] in
  if negb (bool_decide (category ∈ valid_categories)) then
    raise (CurrentsValidationError (ERROR_MESSAGES invalid_category) None)
  else Ok tt.

Definition validate_params (language : string) (limit : Z)
    (category : option string) : Result unit :=
  validate_language language ;;
  validate_limit limit ;;
  match category with
  | Some c => if truthy category then validate_category c else Ok tt
  | None => Ok tt
  end.

(** The three rules of [validate_params], as propositions. *)
Definition bad_language (language : string) : Prop :=
  language ∉ SUPPORTED_LANGUAGES.

Definition bad_limit (limit : Z) : Prop := ¬ (1 ≤ limit ≤ 100).

Definition bad_category (category : option string) : Prop :=
  ∃ c, category = Some c ∧ c ≠ "" ∧ c ∉ SUPPORTED_CATEGORIES.

#[export] Instance bad_language_dec language : Decision (bad_language language).
Proof. unfold bad_language. apply _. Defined.

#[export] Instance bad_limit_dec limit : Decision (bad_limit limit).
Proof. unfold bad_limit. apply _. Defined.

#[export] Instance bad_category_dec category : Decision (bad_category category).
Proof.
  unfold bad_category. destruct category as [c|].
  - destruct (decide (c ≠ "" ∧ c ∉ SUPPORTED_CATEGORIES)) as [H|H].
    + left. eauto.
    + right. intros (c' & [= <-] & H1 & H2). tauto.
  - right. by intros (c' & [=] & _).
Defined.

(** *** _ErrorRaiser *)

Definition raise_auth_error : Result unit :=
  raise (CurrentsAuthenticationError (ERROR_MESSAGES invalid_api_key)).

Definition raise_validation_error : Result unit :=
  raise (CurrentsValidationError (ERROR_MESSAGES invalid_parameters) None).

Definition raise_server_error : Result unit :=
  raise (CurrentsServerError (ERROR_MESSAGES server_error)).

Definition raise_generic_error (status_code : Z)
    (response : Requests.Response) : Result unit :=
  raise (CurrentsAPIError
           ("HTTP " +:+ str_of_int status_code +:+ ": " +:+
            Requests.reason response) None None).

Section HTTP.

(** The builtin [int] on a string: [None] when it raises [ValueError]. *)
Variable py_int : string -> option Z.

(** The schema library's scalar validators (see [Models]). *)
Variable validate_str : JSON -> option string.
Variable validate_HttpUrl : JSON -> option string.
Variable validate_datetime : JSON -> option datetime.

(** The network: what a [session.get] meets, given everything observed
    before it.  [None] is a transport-level failure, that is
    [requests.exceptions.RequestException] raised by the call. *)
Variable net : list Event -> Requests.GetCall -> option Requests.Response.

(** [_ParameterValidator.validate_keywords]; [strip] is the string
    method. *)
Variable py_strip : string -> string.

Definition validate_keywords (keywords : string) : Result unit :=
  if negb (truthy (Some keywords)) || negb (truthy (Some (py_strip keywords)))
  then raise (CurrentsValidationError (ERROR_MESSAGES invalid_parameters) None)
  else Ok tt.

(** *** _HTTPErrorHandler *)

Definition _handle_rate_limit_error (response : Requests.Response)
    : Result unit :=
  let retry_after_str := Requests.headers response !! "Retry-After" in
  let retry_after :=
    if truthy retry_after_str then
      match retry_after_str with
      | Some s => py_int s
      | None => None
      end
    else None in
  raise (CurrentsRateLimitError (ERROR_MESSAGES rate_limit_exceeded)
           retry_after).

Definition handle_http_error (status_code : Z)
    (response : Requests.Response) : Result unit :=
  if status_code =? HTTP401 then raise_auth_error
  else if status_code =? HTTP429 then _handle_rate_limit_error response
  else if status_code =? HTTP400 then raise_validation_error
  else if status_code >=? HTTP500 then raise_server_error
  else raise_generic_error status_code response.

Definition parse_response_json (response : Requests.Response)
    : Result JSON :=
  match Requests.json response with
  | Some v => Ok v
  | None =>
      raise (CurrentsResponseError
               (ERROR_MESSAGES invalid_response +:+ ": Invalid JSON"))
  end.

(** *** HTTPClient *)

Record HTTPClient : Type := mkHTTPClient {
  base_url : string;
  session : Requests.Session;
  max_retries : Z;
  retry_delay : Z;
}.

Definition HTTPClient_init (api_key base_url : string) : HTTPClient :=
  {| base_url := rstrip "/" base_url;
     session := {| Requests.params := {[ "apiKey" := api_key ]} |};
     max_retries := 3;
     retry_delay := 1 |}.

Definition _handle_response (response : Requests.Response)
    : Result (list (string * JSON)) :=
  (if Requests.raise_for_status_raises response then
     handle_http_error (Requests.status_code response) response
   else Ok tt) ;;
  response_data ← parse_response_json response;
  match response_data with
  | JObject d => Ok d
  | _ => raise (CurrentsResponseError (ERROR_MESSAGES invalid_response))
  end.

(** [self.session.get(url, params=..., timeout=...)]: the call is
    observed, and the network decides its outcome. *)
Definition session_get (self : HTTPClient) (url : string)
    (request_params : option (gmap string Requests.ParamValue))
    (timeout : Z) : M (option Requests.Response) :=
  λ w,
    let call := {| Requests.get_session := session self;
                   Requests.get_url := url;
                   Requests.get_params := request_params;
                   Requests.get_timeout := timeout |} in
    (Ok (net (trace w) call), emit (EvGet call) w).

(** The body of the [for attempt in ...] loop of [request], over the
    attempts still to run; falling out of the loop raises. *)
Fixpoint request_loop (self : HTTPClient) (url : string)
    (request_params : option (gmap string Requests.ParamValue))
    (attempts : list Z) : M (list (string * JSON)) :=
  match attempts with
  | [] => lift (raise (CurrentsConnectionError (ERROR_MESSAGES connection_error)))
  | attempt :: rest =>
      got ← session_get self url request_params REQUEST_TIMEOUT;
      match got with
      | None =>
          if attempt =? max_retries self - 1 then
            lift (raise (CurrentsConnectionError
                           (ERROR_MESSAGES connection_error)))
          else
            sleep (retry_delay self * 2 ^ attempt) ;;
            request_loop self url request_params rest
      | Some response => lift (_handle_response response)
      end
  end.

Definition request (self : HTTPClient) (endpoint : string)
    (request_params : option (gmap string Requests.ParamValue))
    : M (list (string * JSON)) :=
  let url := base_url self +:+ endpoint in
  request_loop self url request_params (range (max_retries self)).

(** The call every attempt of [request] makes. *)
Definition get_call (self : HTTPClient) (endpoint : string)
    (request_params : option (gmap string Requests.ParamValue))
    : Requests.GetCall :=
  {| Requests.get_session := session self;
     Requests.get_url := base_url self +:+ endpoint;
     Requests.get_params := request_params;
     Requests.get_timeout := REQUEST_TIMEOUT |}.

(** What [k] attempts that fail at the transport level leave behind,
    from attempt [a] on: each call followed by its back-off sleep. *)
Definition backoff (self : HTTPClient) (call : Requests.GetCall)
    (a k : nat) : list Event :=
  flat_map (λ i, [EvGet call;
                  EvSleep (retry_delay self * 2 ^ Z.of_nat i)])
           (seq a k).

(** *** CurrentsClient *)

Record CurrentsClient : Type := mkCurrentsClient {
  _http_client : HTTPClient;
}.

Definition DEFAULT_BASE_URL : string := "https://api.currentsapi.services/v1".

Definition CurrentsClient_init (api_key : option string)
    (base_url : string) : M CurrentsClient :=
  api_key ← py_or api_key (getenv "NEWS_API_KEY");
  match api_key with
  | Some key =>
      if truthy api_key then
        mret {| _http_client := HTTPClient_init key base_url |}
      else
        lift (raise (CurrentsAuthenticationError
                       (ERROR_MESSAGES invalid_api_key)))
  | None =>
      lift (raise (CurrentsAuthenticationError
                     (ERROR_MESSAGES invalid_api_key)))
  end.

(** The [NewsResponse] constructor on the members of the response. *)
Definition NewsResponse_init (response_data : list (string * JSON))
    : Result NewsResponse :=
  match NewsResponse_fields validate_str validate_HttpUrl validate_datetime
          response_data with
  | inr r => Ok r
  | inl errors => Raise (PydanticValidationError errors)
  end.

Definition get_latest_news (self : CurrentsClient) (language : string)
    (limit : Z) : M NewsResponse :=
  lift (validate_params language limit None) ;;
  let request_params : gmap string Requests.ParamValue :=
    {[ "language" := Requests.PStr language;
       "limit" := Requests.PInt limit ]} in
  response_data ← request (_http_client self) LATEST_NEWS_ENDPOINT
                    (Some request_params);
  lift (NewsResponse_init response_data).

Definition search_news (self : CurrentsClient) (keywords : string)
    (language : string) (limit : Z) (domain : option string)
    : M NewsResponse :=
  lift (validate_params language limit None) ;;
  lift (validate_keywords keywords) ;;
  let request_params : gmap string Requests.ParamValue :=
    {[ "keywords" := Requests.PStr keywords;
       "language" := Requests.PStr language;
       "limit" := Requests.PInt limit ]} in
  let request_params :=
    match domain with
    | Some dom =>
        if truthy domain then <[ "domain" := Requests.PStr dom ]> request_params
        else request_params
    | None => request_params
    end in
  response_data ← request (_http_client self) SEARCH_ENDPOINT
                    (Some request_params);
  lift (NewsResponse_init response_data).

Definition get_category_news (self : CurrentsClient) (category : string)
    (language : string) (limit : Z) : M NewsResponse :=
  lift (validate_params language limit (Some category)) ;;
  let request_params : gmap string Requests.ParamValue :=
    {[ "category" := Requests.PStr category;
       "language" := Requests.PStr language;
       "limit" := Requests.PInt limit ]} in
  response_data ← request (_http_client self) SEARCH_ENDPOINT
                    (Some request_params);
  lift (NewsResponse_init response_data).

End HTTP.

End Client.

(** ** Concrete stand-ins for the library functions

    Executable instances of the section variables, for running the model:
    the builtin [int] on plain ASCII decimal numerals, strict scalar
    validators, and scripted networks. *)

Module Instances.

Import Models Client.

Definition is_digit (c : ascii) : bool :=
  (48 <=? nat_of_ascii c)%nat && (nat_of_ascii c <=? 57)%nat.

Fixpoint digits_value (acc : Z) (s : string) : option Z :=
  match s with
  | EmptyString => Some acc
  | String c s' =>
      if is_digit c then
        digits_value (10 * acc + (Z.of_nat (nat_of_ascii c) - 48)) s'
      else None
  end.

Definition unsigned_int (s : string) : option Z :=
  match s with
  | EmptyString => None
  | _ => digits_value 0 s
  end.

(** [int(s)] for an optional sign followed by ASCII digits. *)
Definition int_ascii (s : string) : option Z :=
  match s with
  | String "-" s' => Z.opp <$> unsigned_int s'
  | String "+" s' => unsigned_int s'
  | _ => unsigned_int s
  end.

(** [s.strip()] for the ASCII white space. *)
Definition is_space (c : ascii) : bool :=
  let n := nat_of_ascii c in
  (n =? 32)%nat || ((9 <=? n)%nat && (n <=? 13)%nat).

Fixpoint lstrip_space (s : string) : string :=
  match s with
  | EmptyString => EmptyString
  | String c s' => if is_space c then lstrip_space s' else s
  end.

Fixpoint rstrip_space (s : string) : string :=
  match s with
  | EmptyString => EmptyString
  | String a s' =>
      match rstrip_space s' with
      | EmptyString => if is_space a then EmptyString else String a EmptyString
      | r => String a r
      end
  end.

Definition strip_ascii (s : string) : string :=
  rstrip_space (lstrip_space s).

Definition str_strict (v : JSON) : option string :=
  match v with
  | JString s => Some s
  | _ => None
  end.

(** A URL is accepted when it has an http or https scheme and something
    after it. *)
Definition url_http (v : JSON) : option string :=
  match v with
  | JString s =>
      if (prefix_of "http://" s && (7 <? String.length s)%nat)
         || (prefix_of "https://" s && (8 <? String.length s)%nat)
      then Some s else None
  | _ => None
  end.

Definition field2 (s : string) (pos : nat) : option Z :=
  let t := String.substring pos 2 s in
  if (String.length t =? 2)%nat then digits_value 0 t else None.

(** Timestamps of the shape [YYYY-MM-DDTHH:MM:SS+00:00] (UTC only). *)
Definition datetime_utc (v : JSON) : option datetime :=
  match v with
  | JString s =>
      if (String.length s =? 25)%nat
         && String.eqb (String.substring 4 1 s) "-"
         && String.eqb (String.substring 7 1 s) "-"
         && String.eqb (String.substring 10 1 s) "T"
         && String.eqb (String.substring 13 1 s) ":"
         && String.eqb (String.substring 16 1 s) ":"
         && String.eqb (String.substring 19 6 s) "+00:00"
      then
        y ← digits_value 0 (String.substring 0 4 s);
        mo ← field2 s 5;
        d ← field2 s 8;
        h ← field2 s 11;
        mi ← field2 s 14;
        se ← field2 s 17;
        if (1 <=? mo) && (mo <=? 12) && (1 <=? d) && (d <=? 31)
           && (h <=? 23) && (mi <=? 59) && (se <=? 59)
        then Some (mkDatetime y mo d h mi se 0 (Some 0))
        else None
      else None
  | _ => None
  end.

(** A network that plays a script: the [n]-th call gets the [n]-th entry,
    and a call beyond the script fails at the transport level. *)
Definition scripted (script : list (option Requests.Response))
    (history : list Event) (call : Requests.GetCall)
    : option Requests.Response :=
  default None (script !! get_count history).

Definition world0 : World := {| environ := ∅; trace := [] |}.

Definition ok_response (body : JSON) : Requests.Response :=
  {| Requests.status_code := 200; Requests.reason := "OK";
     Requests.headers := ∅; Requests.json := Some body |}.

Definition error_response (status : Z) (reason : string)
    (hdrs : Requests.CaseInsensitiveDict) : Requests.Response :=
  {| Requests.status_code := status; Requests.reason := reason;
     Requests.headers := hdrs;
     Requests.json := Some (JObject [("status", JString "error")]) |}.

Definition article1 : JSON :=
  JObject [("id", JString "test-id-1");
           ("title", JString "Test News Article 1");
           ("description", JString "This is a test news article description");
           ("url", JString "https://example.com/article1");
           ("author", JString "Test Author");
           ("image", JString "https://example.com/image1.jpg");
           ("language", JString "en");
           ("category", JArray [JString "technology"]);
           ("published", JString "2024-01-01T12:00:00+00:00")].

Definition article2 : JSON :=
  JObject [("id", JString "test-id-2");
           ("title", JString "Test News Article 2");
           ("description", JString "Another test news article description");
           ("url", JString "https://example.com/article2");
           ("author", JString "Another Author");
           ("image", JNull);
           ("language", JString "en");
           ("category", JArray [JString "business"; JString "technology"]);
           ("published", JString "2024-01-01T13:00:00+00:00")].

(** [article1] without its [id]. *)
Definition article_no_id : JSON :=
  JObject [("title", JString "Test News Article 1");
           ("description", JString "This is a test news article description");
           ("url", JString "https://example.com/article1");
           ("language", JString "en");
           ("published", JString "2024-01-01T12:00:00+00:00")].

(** [article1] with an [url] that is no URL. *)
Definition article_bad_url : JSON :=
  JObject [("id", JString "test-id");
           ("title", JString "Test Article");
           ("description", JString "Test description");
           ("url", JString "not-a-url");
           ("language", JString "en");
           ("category", JArray []);
           ("published", JString "2024-01-01T12:00:00+00:00")].

Definition news_body (items : list JSON) : list (string * JSON) :=
  [("status", JString "ok"); ("news", JArray items)].

Definition client0 : CurrentsClient :=
  {| _http_client := HTTPClient_init "valid-api-key-12345" DEFAULT_BASE_URL |}.

Definition too_many_requests : Requests.Response :=
  error_response 429 "Too Many Requests" {[ "Retry-After" := "60" ]}.

End Instances.

(** ** models.py: the request-parameter schemas

    [SearchParams], [LatestNewsParams] and [CategoryNewsParams], built from
    keyword arguments.  A default is used as it is when the argument is
    absent; [ge] and [le] bound the validated integer. *)

Module ParamModels.

Import Models.

Definition DEFAULT_LIMIT : Z := 20.

(** An [int] field with [ge=lo, le=hi]. *)
Definition int_between (validate_int : JSON -> option Z) (lo hi : Z)
    (v : JSON) : option Z :=
  match validate_int v with
  | Some n => if (lo <=? n) && (n <=? hi) then Some n else None
  | None => None
  end.

Module SearchParams.

Record t : Type := mk {
  keywords : string;
  language : string;
  limit : Z;
  domain : option string;
}.

Definition fields (validate_str : JSON -> option string)
    (validate_int : JSON -> option Z) (d : list (string * JSON)) : V t :=
  inr mk
    <*> required "keywords" (leaf validate_str) d
    <*> defaulted "language" "en" (leaf validate_str) d
    <*> defaulted "limit" DEFAULT_LIMIT
          (leaf (int_between validate_int 1 100)) d
    <*> defaulted "domain" None (optional (leaf validate_str)) d.

End SearchParams.

Module LatestNewsParams.

Record t : Type := mk {
  language : string;
  limit : Z;
}.

Definition fields (validate_str : JSON -> option string)
    (validate_int : JSON -> option Z) (d : list (string * JSON)) : V t :=
  inr mk
    <*> defaulted "language" "en" (leaf validate_str) d
    <*> defaulted "limit" DEFAULT_LIMIT
          (leaf (int_between validate_int 1 100)) d.

End LatestNewsParams.

Module CategoryNewsParams.

Record t : Type := mk {
  category : string;
  language : string;
  limit : Z;
}.

Definition fields (validate_str : JSON -> option string)
    (validate_int : JSON -> option Z) (d : list (string * JSON)) : V t :=
  inr mk
    <*> required "category" (leaf validate_str) d
    <*> defaulted "language" "en" (leaf validate_str) d
    <*> defaulted "limit" DEFAULT_LIMIT
          (leaf (int_between validate_int 1 100)) d.

End CategoryNewsParams.

End ParamModels.

(** ** Predicates on what the client raises and calls *)

Module Observations.

Import Types Exceptions Models Client.

(** A result raises, of the typed family, only errors that satisfy [P]. *)
Definition raises_only {A} (P : CurrentsError -> Prop) (r : Result A) : Prop :=
  match r with
  | Raise (Currents e) => P e
  | _ => True
  end.

(** An error without the optional attributes: no [field], no response
    data, and a [retry_after] on a rate-limit error only. *)
Definition plain (e : CurrentsError) : Prop :=
  field e = None ∧ response_data e = [] ∧
  (kind e ≠ RateLimit → retry_after e = None).

(** The events are calls of [call] and sleeps only. *)
Definition calls_only (call : Requests.GetCall) (evs : list Event) : Prop :=
  ∀ ev, ev ∈ evs → ev = EvGet call ∨ ∃ d, ev = EvSleep d.

(** The seconds slept among the events. *)
Definition slept (evs : list Event) : Z :=
  foldr (λ ev acc, match ev with EvSleep d => d + acc | EvGet _ => acc end)
        0 evs.

(** The call an operation makes through client [self]. *)
Definition call_of (self : CurrentsClient) (endpoint : string)
    (request_params : gmap string Requests.ParamValue) : Requests.GetCall :=
  {| Requests.get_session := session (_http_client self);
     Requests.get_url := base_url (_http_client self) +:+ endpoint;
     Requests.get_params := Some request_params;
     Requests.get_timeout := 30 |}.

(** The query parameters of the three operations. *)
Definition latest_news_params (language : string) (limit : Z)
    : gmap string Requests.ParamValue :=
  {[ "language" := Requests.PStr language; "limit" := Requests.PInt limit ]}.

Definition category_news_params (category language : string) (limit : Z)
    : gmap string Requests.ParamValue :=
  {[ "category" := Requests.PStr category;
     "language" := Requests.PStr language;
     "limit" := Requests.PInt limit ]}.

Definition search_news_params (keywords language : string) (limit : Z)
    (domain : option string) : gmap string Requests.ParamValue :=
  let request_params : gmap string Requests.ParamValue :=
    {[ "keywords" := Requests.PStr keywords;
       "language" := Requests.PStr language;
       "limit" := Requests.PInt limit ]} in
  match domain with
  | Some dom =>
      if truthy domain then <[ "domain" := Requests.PStr dom ]> request_params
      else request_params
  | None => request_params
  end.

(** What follows validation in each operation: the request, then the
    mapper on what the request returns. *)
Definition request_and_map (py_int : string -> option Z)
    (validate_str validate_HttpUrl : JSON -> option string)
    (validate_datetime : JSON -> option datetime)
    (net : list Event -> Requests.GetCall -> option Requests.Response)
    (self : CurrentsClient) (endpoint : string)
    (request_params : gmap string Requests.ParamValue) (w : World)
    : Result NewsResponse * World :=
  let out := request py_int net (_http_client self) endpoint
               (Some request_params) w in
  match out.1 with
  | Ok response_data =>
      (NewsResponse_init validate_str validate_HttpUrl validate_datetime
         response_data, out.2)
  | Raise e => (Raise e, out.2)
  end.

(** Clients whose retry attributes were changed after construction. *)
Definition with_retries (n delay : Z) (self : HTTPClient) : HTTPClient :=
  {| base_url := base_url self; session := session self;
     max_retries := n; retry_delay := delay |}.

End Observations.

(** ** More concrete inputs *)

Module Samples.

Import Models Client Instances Observations.

Definition int_strict (v : JSON) : option Z :=
  match v with
  | JInt n => Some n
  | _ => None
  end.

(** A client set to five attempts and a base delay of two seconds, and one
    set to no attempt at all. *)
Definition patient_client : HTTPClient :=
  with_retries 5 2 (_http_client client0).

Definition idle_client : HTTPClient :=
  with_retries 0 1 (_http_client client0).

Definition not_modified : Requests.Response :=
  {| Requests.status_code := 304; Requests.reason := "Not Modified";
     Requests.headers := ∅;
     Requests.json := Some (JObject (news_body [])) |}.

Definition service_unavailable : Requests.Response :=
  error_response 503 "Service Unavailable" ∅.

Definition not_found : Requests.Response :=
  error_response 404 "Not Found" ∅.

(** A 429 response whose header name is in lower case, a 200 response
    whose body is no JSON, and a client with a negative base delay. *)
Definition too_many_requests_lower : Requests.Response :=
  error_response 429 "Too Many Requests" {[ "retry-after" := "60" ]}.

Definition not_json : Requests.Response :=
  {| Requests.status_code := 200; Requests.reason := "OK";
     Requests.headers := ∅; Requests.json := None |}.

Definition hasty_client : HTTPClient :=
  with_retries 3 (-1) (_http_client client0).

End Samples.

(** * Properties *)

Import Types Exceptions Client.

(** ** Strings *)

#[local] Arguments String.append : simpl nomatch.

Lemma prefix_of_app (p s : string) : prefix_of p (p +:+ s) = true.
Proof.
  induction p as [|a p IH]; simpl; [done|].
  by rewrite Ascii.eqb_refl, IH.
Qed.

Lemma contains_here (n s : string) : contains n (n +:+ s) = true.
Proof. destruct n; simpl; [by destruct s|]. by rewrite Ascii.eqb_refl, prefix_of_app. Qed.

Lemma contains_app_r (n a s : string) :
  contains n s = true → contains n (a +:+ s) = true.
Proof.
  intros H. induction a as [|c a IH]; simpl; [done|].
  rewrite IH. by destruct n; [|apply orb_true_r].
Qed.

Lemma contains_middle (n a b : string) : contains n (a +:+ n +:+ b) = true.
Proof. apply contains_app_r, contains_here. Qed.

Lemma append_empty_r (s : string) : s +:+ "" = s.
Proof. induction s; simpl; congruence. Qed.

Lemma contains_end (n a : string) : contains n (a +:+ n) = true.
Proof.
  apply contains_app_r. rewrite <- (append_empty_r n) at 2.
  apply contains_here.
Qed.

(** ** The parameter validator *)

Lemma validate_language_spec (language : string) :
  validate_language language =
    if bool_decide (language ∈ SUPPORTED_LANGUAGES) then Ok tt
    else raise (CurrentsValidationError (ERROR_MESSAGES invalid_language) None).
Proof.
  unfold validate_language, SUPPORTED_LANGUAGES. cbv zeta.
  by case_bool_decide.
Qed.

Lemma validate_limit_spec (limit : Z) :
  validate_limit limit =
    if bool_decide (1 ≤ limit ≤ 100) then Ok tt
    else raise (CurrentsValidationError (ERROR_MESSAGES limit_out_of_range) None).
Proof.
  unfold validate_limit, MIN_LIMIT, MAX_LIMIT.
  case_bool_decide;
    destruct (Z.ltb_spec limit 1), (Z.gtb_spec limit 100); simpl; auto; lia.
Qed.

Lemma validate_category_spec (category : string) :
  validate_category category =
    if bool_decide (category ∈ SUPPORTED_CATEGORIES) then Ok tt
    else raise (CurrentsValidationError (ERROR_MESSAGES invalid_category) None).
Proof.
  unfold validate_category, SUPPORTED_CATEGORIES. cbv zeta.
  by case_bool_decide.
Qed.

Lemma truthy_Some (s : string) : truthy (Some s) = true ↔ s ≠ "".
Proof. destruct s; simpl; split; intros H; done. Qed.

(** C3: [validate_params] raises exactly when the language is not one of
    the 14 codes, or the limit is outside 1..100, or a non-empty category is
    given that is not one of the 12 codes.  The rules are checked in the
    order language, limit, category, and the error raised is the one of the
    first rule violated; the three messages differ.  What is raised is a
    validation error; validation leaves the world as it was, so that it
    makes no network call. *)
Theorem validate_params_first_violation
    (language : string) (limit : Z) (category : option string) :
  length SUPPORTED_LANGUAGES = 14%nat ∧ length SUPPORTED_CATEGORIES = 12%nat ∧
  validate_params language limit category =
    (if decide (bad_language language) then
       raise (CurrentsValidationError (ERROR_MESSAGES invalid_language) None)
     else if decide (bad_limit limit) then
       raise (CurrentsValidationError (ERROR_MESSAGES limit_out_of_range) None)
     else if decide (bad_category category) then
       raise (CurrentsValidationError (ERROR_MESSAGES invalid_category) None)
     else Ok tt) ∧
  ((∃ e, validate_params language limit category = Raise e) ↔
   bad_language language ∨ bad_limit limit ∨ bad_category category) ∧
  (∀ e, validate_params language limit category = Raise e →
        ∃ msg, e = Currents (CurrentsValidationError msg None)) ∧
  ERROR_MESSAGES invalid_language ≠ ERROR_MESSAGES limit_out_of_range ∧
  ERROR_MESSAGES invalid_language ≠ ERROR_MESSAGES invalid_category ∧
  ERROR_MESSAGES limit_out_of_range ≠ ERROR_MESSAGES invalid_category ∧
  (∀ w, lift (validate_params language limit category) w
        = (validate_params language limit category, w)).
Proof.
  assert (Heq : validate_params language limit category =
    (if decide (bad_language language) then
       raise (CurrentsValidationError (ERROR_MESSAGES invalid_language) None)
     else if decide (bad_limit limit) then
       raise (CurrentsValidationError (ERROR_MESSAGES limit_out_of_range) None)
     else if decide (bad_category category) then
       raise (CurrentsValidationError (ERROR_MESSAGES invalid_category) None)
     else Ok tt)).
  { unfold validate_params.
    rewrite validate_language_spec, validate_limit_spec.
    destruct (decide (bad_language language)) as [Hl|Hl].
    { by rewrite (bool_decide_eq_false_2 (language ∈ _)). }
    rewrite (bool_decide_eq_true_2 (language ∈ _)) by (by apply dec_stable).
    destruct (decide (bad_limit limit)) as [Hn|Hn].
    { by rewrite (bool_decide_eq_false_2 (1 ≤ limit ≤ 100)). }
    rewrite (bool_decide_eq_true_2 (1 ≤ limit ≤ 100)) by (by apply dec_stable).
    simpl.
    destruct (decide (bad_category category)) as [(c & -> & Hc & Hin)|Hcat].
    - apply truthy_Some in Hc. rewrite Hc, validate_category_spec.
      by case_bool_decide.
    - destruct category as [c|]; [|done].
      destruct (truthy (Some c)) eqn:Ht; [|done].
      rewrite validate_category_spec. case_bool_decide as Hin; [done|].
      exfalso. apply Hcat. exists c. by rewrite <- truthy_Some. }
  split_and!; try done.
  - rewrite Heq. unfold raise. split.
    + intros [e He]. repeat case_decide; auto. discriminate.
    + intros H. repeat case_decide; eauto. tauto.
  - rewrite Heq. unfold raise. intros e He.
    repeat case_decide; inversion He; eauto.
Qed.

(** ** Results *)

Lemma raises_well_coded_bind {A B} (m : Result A) (f : A → Result B) :
  raises_well_coded m → (∀ a, raises_well_coded (f a)) →
  raises_well_coded (m ≫= f).
Proof. intros Hm Hf. destruct m as [a|e]; [apply Hf|apply Hm]. Qed.

(** ** The error classifier *)

Section ErrorHandler.

Variable py_int : string -> option Z.

Lemma str_of_int_in_generic_message (status_code : Z) (reason : string) :
  contains (str_of_int status_code)
    ("HTTP " +:+ str_of_int status_code +:+ ": " +:+ reason) = true
  ∧ contains reason
      ("HTTP " +:+ str_of_int status_code +:+ ": " +:+ reason) = true.
Proof.
  split.
  - apply contains_middle.
  - apply contains_app_r, contains_app_r, contains_end.
Qed.

(** The decimal numeral [str] gives reads back as the integer. *)
Lemma str_of_int_reads_back (n : Z) :
  Z.of_int <$> NilEmpty.int_of_string (str_of_int n) = Some n.
Proof.
  unfold str_of_int. rewrite NilEmpty.isi. simpl. f_equal.
  apply DecimalZ.of_to.
Qed.

(** C2: the classifier raises exactly one member of the family, chosen by
    the first rule that matches, in the order 401 (authentication, whatever
    the response holds), 429 (rate limit), 400 (validation), 500 and above
    (server); every other status gives the base class, and the message of
    that error contains the decimal status, which reads back as the status
    code, and the reason phrase of the response. *)
Theorem handle_http_error_classifies
    (status_code : Z) (response : Requests.Response) :
  let raised := handle_http_error py_int status_code response in
  (∃ e, raised = Raise (Currents e) ∧
        kind e = (if decide (status_code = 401) then Authentication
                  else if decide (status_code = 429) then RateLimit
                  else if decide (status_code = 400) then Validation
                  else if decide (500 ≤ status_code) then Server
                  else GenericAPI) ∧
        message e = (if decide (status_code = 401)
                     then "Invalid API key provided"
                     else if decide (status_code = 429)
                     then "API rate limit exceeded. Please try again later."
                     else if decide (status_code = 400)
                     then "Invalid request parameters provided"
                     else if decide (500 ≤ status_code)
                     then "API server error. Please try again later."
                     else "HTTP " +:+ str_of_int status_code +:+ ": " +:+
                          Requests.reason response)) ∧
  (status_code = 401 →
     raised = raise (CurrentsAuthenticationError
                       (ERROR_MESSAGES invalid_api_key))) ∧
  (status_code = 429 →
     ∃ ra, raised = raise (CurrentsRateLimitError
                             (ERROR_MESSAGES rate_limit_exceeded) ra)) ∧
  (status_code = 400 →
     raised = raise (CurrentsValidationError
                       (ERROR_MESSAGES invalid_parameters) None)) ∧
  (500 ≤ status_code →
     raised = raise (CurrentsServerError (ERROR_MESSAGES server_error))) ∧
  (status_code ≠ 401 → status_code ≠ 429 → status_code ≠ 400 →
   status_code < 500 →
     let msg := "HTTP " +:+ str_of_int status_code +:+ ": " +:+
                Requests.reason response in
     raised = raise (CurrentsAPIError msg None None) ∧
     contains (str_of_int status_code) msg = true ∧
     contains (Requests.reason response) msg = true) ∧
  (status_code ≠ 401 → status_code ≠ 429 → status_code ≠ 400 →
   status_code < 500 →
     ∃ e, raised = Raise (Currents e) ∧ kind e = GenericAPI ∧
          contains (str_of_int status_code) (message e) = true ∧
          contains (Requests.reason response) (message e) = true ∧
          Z.of_int <$> NilEmpty.int_of_string (str_of_int status_code)
            = Some status_code).
Proof.
  unfold handle_http_error, HTTP401, HTTP429, HTTP400, HTTP500. cbv zeta.
  split_and!.
  - destruct (Z.eqb_spec status_code 401);
      [eexists; split; [reflexivity|]; repeat case_decide; done || lia|].
    destruct (Z.eqb_spec status_code 429);
      [eexists; split; [reflexivity|]; repeat case_decide; done || lia|].
    destruct (Z.eqb_spec status_code 400);
      [eexists; split; [reflexivity|]; repeat case_decide; done || lia|].
    destruct (Z.geb_spec status_code 500);
      eexists; (split; [reflexivity|]); repeat case_decide; done || lia.
  - by intros ->.
  - intros ->. by eexists.
  - by intros ->.
  - intros H4.
    assert (H1 : status_code ≠ 401) by lia.
    assert (H2 : status_code ≠ 429) by lia.
    assert (H3 : status_code ≠ 400) by lia.
    rewrite <- Z.eqb_neq in H1, H2, H3. rewrite H1, H2, H3.
    by rewrite (proj2 (Z.geb_le _ _)).
  - intros H1 H2 H3 H4.
    rewrite <- Z.eqb_neq in H1, H2, H3. rewrite H1, H2, H3.
    destruct (Z.geb_spec status_code 500) as [|_]; [lia|].
    split; [done|]. apply str_of_int_in_generic_message.
  - intros H1 H2 H3 H4.
    rewrite <- Z.eqb_neq in H1, H2, H3. rewrite H1, H2, H3.
    destruct (Z.geb_spec status_code 500) as [|_]; [lia|].
    eexists. split; [reflexivity|]. split; [reflexivity|].
    change (message (CurrentsAPIError ?m None None)) with m.
    split; [apply str_of_int_in_generic_message|].
    split; [apply str_of_int_in_generic_message|].
    apply str_of_int_reads_back.
Qed.

Lemma handle_http_error_raises status_code response :
  ∃ e, handle_http_error py_int status_code response = Raise (Currents e).
Proof.
  unfold handle_http_error. repeat case_match; by eexists.
Qed.

Lemma handle_http_error_well_coded status_code response :
  raises_well_coded (handle_http_error py_int status_code response).
Proof.
  unfold handle_http_error.
  repeat case_match; done.
Qed.

Lemma parse_response_json_well_coded response :
  raises_well_coded (parse_response_json response).
Proof. unfold parse_response_json. by case_match. Qed.

Lemma handle_response_well_coded response :
  raises_well_coded (_handle_response py_int response).
Proof.
  unfold _handle_response.
  apply raises_well_coded_bind.
  { case_match; [apply handle_http_error_well_coded|done]. }
  intros _. apply raises_well_coded_bind.
  { apply parse_response_json_well_coded. }
  intros v. by destruct v.
Qed.

(** An HTTP error status never reaches the parser: the response handler
    raises what the classifier raises. *)
Lemma handle_response_error_status response :
  400 ≤ Requests.status_code response < 600 →
  ∃ e, _handle_response py_int response = Raise (Currents e)
       ∧ handle_http_error py_int (Requests.status_code response) response
         = Raise (Currents e).
Proof.
  intros H. unfold _handle_response, Requests.raise_for_status_raises.
  rewrite (proj2 (Z.leb_le _ _)), (proj2 (Z.ltb_lt _ _)) by lia. simpl.
  destruct (handle_http_error_raises (Requests.status_code response)
              response) as [e He].
  rewrite He. by exists e.
Qed.

(** C5: on a 2xx response the body is parsed.  A body that is no JSON
    gives a response error whose message is "Invalid response from API:
    Invalid JSON", so says that the JSON is invalid; a JSON value that is no
    object gives a response error whose message is "Invalid response from
    API"; an object is returned as it is. *)
Theorem handle_response_success (response : Requests.Response) :
  200 ≤ Requests.status_code response < 300 →
  _handle_response py_int response =
    match Requests.json response with
    | None =>
        raise (CurrentsResponseError "Invalid response from API: Invalid JSON")
    | Some (JObject d) => Ok d
    | Some _ => raise (CurrentsResponseError "Invalid response from API")
    end
  ∧ contains "Invalid JSON" "Invalid response from API: Invalid JSON" = true
  ∧ kind (CurrentsResponseError "Invalid response from API") = Response
  ∧ match Requests.json response with
    | None =>
        ∃ e, _handle_response py_int response = Raise (Currents e)
             ∧ kind e = Response
             ∧ message e = "Invalid response from API: Invalid JSON"
             ∧ contains "Invalid JSON" (message e) = true
    | Some (JObject d) => _handle_response py_int response = Ok d
    | Some _ =>
        ∃ e, _handle_response py_int response = Raise (Currents e)
             ∧ kind e = Response
             ∧ message e = "Invalid response from API"
    end.
Proof.
  intros H.
  assert (Heq : _handle_response py_int response =
    match Requests.json response with
    | None =>
        raise (CurrentsResponseError "Invalid response from API: Invalid JSON")
    | Some (JObject d) => Ok d
    | Some _ => raise (CurrentsResponseError "Invalid response from API")
    end).
  { unfold _handle_response, Requests.raise_for_status_raises.
    destruct (Z.leb_spec 400 (Requests.status_code response)); [lia|].
    simpl. unfold parse_response_json.
    destruct (Requests.json response) as [[]|]; done. }
  split; [exact Heq|]. split; [done|]. split; [done|].
  rewrite Heq.
  destruct (Requests.json response) as [[]|]; try done;
    eexists; (split; [reflexivity|]); done.
Qed.

(** The headers are found whatever the case of the name they were set
    with. *)
Lemma header_lookup_any_case (key v : string)
    (h : Requests.CaseInsensitiveDict) :
  Requests.lower key = "retry-after" →
  (<[key := v]> h : Requests.CaseInsensitiveDict) !! "Retry-After" = Some v.
Proof.
  intros Hkey.
  unfold lookup, Requests.CaseInsensitiveDict_lookup, insert,
    Requests.CaseInsensitiveDict_insert. simpl. rewrite Hkey.
  change (Requests.lower "Retry-After") with "retry-after".
  by rewrite lookup_insert_eq.
Qed.

(** C6: on a 429 response the rate-limit error carries, as its
    [retry_after], the integer value of the Retry-After header when the
    header is there (under a name of any case) and [int] accepts it, and
    nothing otherwise; reading the header raises nothing of its own, the
    rate-limit error is raised in every case. *)
Theorem rate_limit_retry_after (response : Requests.Response) :
  py_int "" = None →
  ∃ ra,
    handle_http_error py_int 429 response
      = raise (CurrentsRateLimitError (ERROR_MESSAGES rate_limit_exceeded) ra)
    ∧ (Requests.status_code response = 429 →
       _handle_response py_int response
         = raise (CurrentsRateLimitError
                    (ERROR_MESSAGES rate_limit_exceeded) ra))
    ∧ ra = Requests.headers response !! "Retry-After" ≫= py_int
    ∧ (∀ s n, Requests.headers response !! "Retry-After" = Some s →
              py_int s = Some n → ra = Some n)
    ∧ (Requests.headers response !! "Retry-After" = None → ra = None)
    ∧ (∀ s, Requests.headers response !! "Retry-After" = Some s →
            py_int s = None → ra = None)
    ∧ (∃ e, handle_http_error py_int 429 response = Raise (Currents e)
            ∧ kind e = RateLimit
            ∧ retry_after e
              = Requests.headers response !! "Retry-After" ≫= py_int
            ∧ retry_after e = ra)
    ∧ (∀ key v h, Requests.lower key = "retry-after" →
         (<[key := v]> h : Requests.CaseInsensitiveDict) !! "Retry-After"
         = Some v).
Proof.
  intros Hempty.
  exists (Requests.headers response !! "Retry-After" ≫= py_int).
  assert (Hraise : handle_http_error py_int 429 response
      = raise (CurrentsRateLimitError (ERROR_MESSAGES rate_limit_exceeded)
                 (Requests.headers response !! "Retry-After" ≫= py_int))).
  { unfold handle_http_error. simpl. unfold _handle_rate_limit_error.
    destruct (Requests.headers response !! "Retry-After") as [[|c s]|];
      simpl; by rewrite ?Hempty. }
  split_and!; try done.
  - intros Hs. unfold _handle_response, Requests.raise_for_status_raises.
    rewrite Hs. change ((400 <=? 429) && (429 <? 600)) with true.
    cbv iota. by rewrite Hraise.
  - by intros s n -> ?.
  - by intros ->.
  - by intros s -> ?.
  - rewrite Hraise. eexists. split; [reflexivity|]. done.
  - apply header_lookup_any_case.
Qed.

End ErrorHandler.

(** ** The transport *)

Section Transport.

Variable py_int : string -> option Z.
Variable net : list Event -> Requests.GetCall -> option Requests.Response.

Lemma backoff_S self call a k :
  backoff self call a (S k) =
    EvGet call :: EvSleep (retry_delay self * 2 ^ Z.of_nat a)
      :: backoff self call (S a) k.
Proof. reflexivity. Qed.

Lemma get_count_app evs1 evs2 :
  get_count (evs1 ++ evs2) = (get_count evs1 + get_count evs2)%nat.
Proof. unfold get_count. by rewrite List.filter_app, length_app. Qed.

Lemma get_count_backoff self call a k :
  get_count (backoff self call a k) = k.
Proof.
  revert a. induction k as [|k IH]; intros a; [done|].
  rewrite backoff_S. unfold get_count in *. simpl. by rewrite IH.
Qed.

(** [time.sleep] returns on a time it accepts, and otherwise raises the
    exception of the builtin and leaves the world as it was. *)
Lemma sleep_accepted seconds w :
  0 ≤ seconds ≤ SLEEP_MAX →
  sleep seconds w = (Ok tt, emit (EvSleep seconds) w).
Proof.
  intros H. unfold sleep.
  replace ((seconds <? - SLEEP_MAX) || (SLEEP_MAX <? seconds)) with false
    by (symmetry; apply orb_false_iff; unfold SLEEP_MAX in *; lia).
  by replace (seconds <? 0) with false by (symmetry; apply Z.ltb_ge; lia).
Qed.

Lemma sleep_cases seconds w :
  sleep seconds w = (Ok tt, emit (EvSleep seconds) w)
  ∨ ∃ name, sleep seconds w = (Raise (Builtin name), w).
Proof. unfold sleep. repeat case_match; eauto. Qed.

(** One turn of the loop of [request]. *)
Lemma request_loop_step self url request_params attempt rest w :
  let call := {| Requests.get_session := session self;
                 Requests.get_url := url;
                 Requests.get_params := request_params;
                 Requests.get_timeout := REQUEST_TIMEOUT |} in
  request_loop py_int net self url request_params (attempt :: rest) w =
    match net (trace w) call with
    | Some response =>
        (_handle_response py_int response, emit (EvGet call) w)
    | None =>
        if attempt =? max_retries self - 1 then
          (raise (CurrentsConnectionError (ERROR_MESSAGES connection_error)),
           emit (EvGet call) w)
        else
          match sleep (retry_delay self * 2 ^ attempt)
                  (emit (EvGet call) w) with
          | (Ok _, w') =>
              request_loop py_int net self url request_params rest w'
          | (Raise e, w') => (Raise e, w')
          end
    end.
Proof.
  intros call. cbn [request_loop].
  unfold mbind at 1. unfold M_bind at 1. unfold session_get at 1.
  fold call. destruct (net (trace w) call); [done|].
  by destruct (attempt =? max_retries self - 1).
Qed.

(** One turn of the loop when the sleep is one [time.sleep] accepts. *)
Lemma request_loop_cons self url request_params attempt rest w :
  let call := {| Requests.get_session := session self;
                 Requests.get_url := url;
                 Requests.get_params := request_params;
                 Requests.get_timeout := REQUEST_TIMEOUT |} in
  0 ≤ retry_delay self * 2 ^ attempt ≤ SLEEP_MAX →
  request_loop py_int net self url request_params (attempt :: rest) w =
    match net (trace w) call with
    | Some response =>
        (_handle_response py_int response, emit (EvGet call) w)
    | None =>
        if attempt =? max_retries self - 1 then
          (raise (CurrentsConnectionError (ERROR_MESSAGES connection_error)),
           emit (EvGet call) w)
        else
          request_loop py_int net self url request_params rest
            (emit (EvSleep (retry_delay self * 2 ^ attempt))
               (emit (EvGet call) w))
    end.
Proof.
  intros call Hsleep. rewrite request_loop_step. fold call.
  by rewrite sleep_accepted.
Qed.

(** The retry loop with [S m] attempts left, the next one being attempt
    [a]: it stops at the first call that gets a response, after [k]
    failed attempts and their sleeps; when no call gets one, the last
    attempt raises the connection error. *)
Lemma request_loop_spec self url request_params :
  let call := {| Requests.get_session := session self;
                 Requests.get_url := url;
                 Requests.get_params := request_params;
                 Requests.get_timeout := REQUEST_TIMEOUT |} in
  ∀ m a w,
    max_retries self = Z.of_nat (a + S m) →
    (∀ i, (a ≤ i < a + m)%nat →
          0 ≤ retry_delay self * 2 ^ Z.of_nat i ≤ SLEEP_MAX) →
    ∃ k, (k ≤ m)%nat ∧
      let out := request_loop py_int net self url request_params
                   (map Z.of_nat (seq a (S m))) w in
      trace out.2 = trace w ++ backoff self call a k ++ [EvGet call] ∧
      environ out.2 = environ w ∧
      (∀ j, (j < k)%nat →
            net (trace w ++ backoff self call a j) call = None) ∧
      match net (trace w ++ backoff self call a k) call with
      | Some response => out.1 = _handle_response py_int response
      | None =>
          k = m ∧
          out.1 = raise (CurrentsConnectionError
                           (ERROR_MESSAGES connection_error))
      end.
Proof.
  intros call m. induction m as [|m IH]; intros a w Hmax Hsleep;
    cbn [seq map];
    [rewrite request_loop_step
    |rewrite request_loop_cons by (apply Hsleep; lia)]; fold call.
  - exists 0%nat. split; [lia|]. cbv zeta.
    change (backoff self call a 0) with (@nil Event).
    rewrite (app_nil_r (trace w)).
    destruct (net (trace w) call) as [response|].
    + split_and!; try done. intros j Hj. lia.
    + replace (Z.of_nat a =? max_retries self - 1) with true
        by (symmetry; apply Z.eqb_eq; lia).
      split_and!; try done. intros j Hj. lia.
  - destruct (net (trace w) call) as [response|] eqn:Hnet.
    + exists 0%nat. split; [lia|]. cbv zeta.
      change (backoff self call a 0) with (@nil Event).
      rewrite (app_nil_r (trace w)), Hnet.
      split_and!; try done. intros j Hj. lia.
    + replace (Z.of_nat a =? max_retries self - 1) with false
        by (symmetry; apply Z.eqb_neq; lia).
      set (w1 := emit (EvSleep (retry_delay self * 2 ^ Z.of_nat a))
                   (emit (EvGet call) w)).
      destruct (IH (S a) w1) as (k & Hk & Htrace & Henv & Hfail & Hlast);
        [lia|intros i Hi; apply Hsleep; lia|].
      assert (Hw1 : ∀ j, trace w1 ++ backoff self call (S a) j
                         = trace w ++ backoff self call a (S j)).
      { intros j. unfold w1. simpl. rewrite backoff_S.
        by rewrite <- !app_assoc. }
      exists (S k). split; [lia|]. cbv zeta.
      change (map Z.of_nat (seq (S a) (S m)))
        with (Z.of_nat (S a) :: map Z.of_nat (seq (S (S a)) m)) in *.
      split_and!.
      * rewrite Htrace, app_assoc, Hw1. by rewrite <- app_assoc.
      * by rewrite Henv.
      * intros [|j] Hj.
        { change (backoff self call a 0) with (@nil Event).
          by rewrite app_nil_r. }
        rewrite <- Hw1. apply Hfail. lia.
      * rewrite <- Hw1.
        destruct (net (trace w1 ++ backoff self call (S a) k) call);
          [done|].
        destruct Hlast as [-> ?]. done.
Qed.

(** The two sleeps of a client as constructed are times [time.sleep]
    accepts. *)
Lemma constructed_sleeps_accepted api_key base_url i :
  (0 ≤ i < 0 + 2)%nat →
  0 ≤ retry_delay (HTTPClient_init api_key base_url) * 2 ^ Z.of_nat i
    ≤ SLEEP_MAX.
Proof.
  intros Hi. unfold SLEEP_MAX. simpl.
  destruct i as [|[|i]]; simpl; lia.
Qed.

(** C1: a request makes at most three network calls.  After [k] calls
    that failed at the transport level (k at most 2), each followed by a
    sleep of [retry_delay * 2 ^ attempt] seconds (1 second, then 2), one
    last call is made.  Every call that is followed by another one failed
    at the transport level.  When the last call gets a response, of
    whatever status, the outcome is the outcome of handling that response
    and nothing more is called; when it fails too, it was the third call
    and the outcome is the connection error. *)
Theorem request_retries (api_key base_url : string) (endpoint : string)
    (request_params : option (gmap string Requests.ParamValue))
    (w : World) :
  let self := HTTPClient_init api_key base_url in
  let call := get_call self endpoint request_params in
  let out := request py_int net self endpoint request_params w in
  backoff self call 0 1 = [EvGet call; EvSleep 1] ∧
  backoff self call 0 2 = [EvGet call; EvSleep 1; EvGet call; EvSleep 2] ∧
  ∃ k, (k ≤ 2)%nat ∧
    trace out.2 = trace w ++ backoff self call 0 k ++ [EvGet call] ∧
    environ out.2 = environ w ∧
    get_count (backoff self call 0 k ++ [EvGet call]) = S k ∧
    (get_count (backoff self call 0 k ++ [EvGet call]) ≤ 3)%nat ∧
    (∀ j, (j < k)%nat →
          net (trace w ++ backoff self call 0 j) call = None) ∧
    match net (trace w ++ backoff self call 0 k) call with
    | Some response => out.1 = _handle_response py_int response
    | None =>
        k = 2%nat ∧
        out.1 = raise (CurrentsConnectionError
                         (ERROR_MESSAGES connection_error))
    end.
Proof.
  intros self call out. split; [done|]. split; [done|].
  destruct (request_loop_spec self
              (Client.base_url self +:+ endpoint) request_params
              2 0 w eq_refl
              (constructed_sleeps_accepted api_key base_url))
    as (k & Hk & H).
  exists k. split; [done|].
  destruct H as (Htrace & Henv & Hfail & Hlast).
  assert (Hcount : get_count (backoff self call 0 k ++ [EvGet call]) = S k).
  { rewrite get_count_app, get_count_backoff. unfold get_count. simpl. lia. }
  split_and!; try done. rewrite Hcount. lia.
Qed.

Lemma elem_of_backoff self call a k ev :
  ev ∈ backoff self call a k → ev = EvGet call ∨ ∃ d, ev = EvSleep d.
Proof.
  revert a. induction k as [|k IH]; intros a.
  - change (backoff self call a 0) with (@nil Event). by intros ?%elem_of_nil.
  - rewrite backoff_S. intros [->|[->|H]%elem_of_cons]%elem_of_cons; eauto.
Qed.

Lemma rstrip_app_char c s : rstrip c (s +:+ String c "") = rstrip c s.
Proof.
  induction s as [|a s IH]; simpl.
  - by rewrite Ascii.eqb_refl.
  - by rewrite IH.
Qed.

Lemma rstrip_app_repeat c s n : rstrip c (s +:+ repeat_char c n) = rstrip c s.
Proof.
  revert s. induction n as [|n IH]; intros s; simpl.
  - by rewrite append_empty_r.
  - rewrite <- (rstrip_app_char c s), <- (IH (s +:+ String c "")).
    f_equal. clear. induction s; simpl; [done|]. by f_equal.
Qed.

Lemma rstrip_decompose c s : ∃ n, s = rstrip c s +:+ repeat_char c n.
Proof.
  induction s as [|a s [n IH]]; simpl.
  - by exists 0%nat.
  - destruct (rstrip c s) eqn:Hr.
    + destruct (Ascii.eqb_spec a c) as [->|].
      * exists (S n). simpl in *. by rewrite <- IH.
      * exists n. simpl in *. by rewrite <- IH.
    + exists n. simpl in *. by rewrite <- IH.
Qed.

Lemma rstrip_no_trailing c s : ends_with c (rstrip c s) = false.
Proof.
  induction s as [|a s IH]; simpl; [done|].
  destruct (rstrip c s) eqn:Hr.
  - destruct (Ascii.eqb_spec a c); simpl; [done|].
    by apply Ascii.eqb_neq.
  - simpl in *. done.
Qed.

(** C10: the client keeps the base URL without its trailing slashes (all
    of them, and nothing else, are removed at construction), and every
    call of every request goes to the kept base URL followed by the
    endpoint; a base URL given with one more trailing slash gives the same
    client and the same requests. *)
Theorem base_url_normalised (api_key base_url : string) (endpoint : string)
    (request_params : option (gmap string Requests.ParamValue))
    (w : World) :
  let self := HTTPClient_init api_key base_url in
  let out := request py_int net self endpoint request_params w in
  Client.base_url self = rstrip "/" base_url ∧
  (∃ n, base_url = Client.base_url self +:+ repeat_char "/" n) ∧
  ends_with "/" (Client.base_url self) = false ∧
  (∃ evs, trace out.2 = trace w ++ evs ∧ (0 < get_count evs)%nat ∧
          ∀ call, EvGet call ∈ evs →
                  Requests.get_url call
                  = rstrip "/" base_url +:+ endpoint) ∧
  HTTPClient_init api_key (base_url +:+ "/") = self ∧
  (∀ n, HTTPClient_init api_key (base_url +:+ repeat_char "/" n) = self) ∧
  request py_int net (HTTPClient_init api_key (base_url +:+ "/")) endpoint
    request_params w = out.
Proof.
  intros self out.
  assert (Hone : HTTPClient_init api_key (base_url +:+ "/") = self).
  { unfold self, HTTPClient_init. by rewrite rstrip_app_char. }
  split_and!.
  - done.
  - apply rstrip_decompose.
  - apply rstrip_no_trailing.
  - destruct (request_loop_spec self
                (Client.base_url self +:+ endpoint) request_params
                2 0 w eq_refl
                (constructed_sleeps_accepted api_key base_url))
      as (k & _ & Htrace & _).
    eexists. split; [apply Htrace|].
    split.
    { rewrite get_count_app, get_count_backoff. unfold get_count.
      simpl. lia. }
    intros call [Hin|[= ->]%list_elem_of_singleton]%elem_of_app; [|done].
    by apply elem_of_backoff in Hin as [[= ->]|[d [=]]].
  - done.
  - intros n. unfold self, HTTPClient_init. by rewrite rstrip_app_repeat.
  - by rewrite Hone.
Qed.

End Transport.

(** ** The response mapper *)

Import Models.

Lemma v_errors_ap {A B} (f : V (A → B)) (x : V A) :
  v_errors (f <*> x) = v_errors f ++ v_errors x.
Proof. destruct f, x; simpl; by rewrite ?app_nil_r. Qed.

Lemma v_errors_map {A B} (f : A → B) (x : V A) :
  v_errors (v_map f x) = v_errors x.
Proof. by destruct x. Qed.

Lemma v_errors_at_loc {A} (l : LocItem) (x : V A) :
  v_errors (at_loc l x) = map (under l) (v_errors x).
Proof. by destruct x. Qed.

Lemma v_failed_ap {A B} (f : V (A → B)) (x : V A) :
  v_failed (f <*> x) = v_failed f || v_failed x.
Proof. by destruct f, x. Qed.

Lemma v_failed_map {A B} (f : A → B) (x : V A) :
  v_failed (v_map f x) = v_failed x.
Proof. by destruct x. Qed.

Lemma v_failed_at_loc {A} (l : LocItem) (x : V A) :
  v_failed (at_loc l x) = v_failed x.
Proof. by destruct x. Qed.

Lemma v_errors_inl {A} (x : V A) (e : ErrorDetails) :
  e ∈ v_errors x → x = inl (v_errors x).
Proof. destruct x; simpl; [done|]. by intros ?%elem_of_nil. Qed.

Lemma v_not_failed {A} (x : V A) : v_failed x = false → ∃ a, x = inr a.
Proof. destruct x; [done|]. eauto. Qed.

Lemma validate_items_errors {A} (validate : JSON → V A) items :
  ∀ i0 i v e,
    items !! i = Some v → e ∈ v_errors (validate v) →
    under (LIdx (i0 + i)) e ∈ v_errors (validate_items validate i0 items).
Proof.
  induction items as [|x items IH]; intros i0 i v e Hi He; [done|].
  cbn [validate_items]. rewrite v_errors_ap, v_errors_map, v_errors_at_loc.
  apply elem_of_app. destruct i as [|i]; simpl in Hi.
  - injection Hi as ->. left. rewrite Nat.add_0_r.
    by apply list_elem_of_fmap_2.
  - right. replace (i0 + S i)%nat with (S i0 + i)%nat by lia. eauto.
Qed.

Lemma validate_items_ok {A} (validate : JSON → V A) (check : JSON → bool) :
  (∀ v, check v = true → v_failed (validate v) = false) →
  ∀ items i0, forallb check items = true →
    v_failed (validate_items validate i0 items) = false.
Proof.
  intros Hcheck. induction items as [|x items IH]; intros i0 Hall; [done|].
  simpl in Hall. apply andb_true_iff in Hall as [Hx Hall].
  cbn [validate_items].
  by rewrite v_failed_ap, v_failed_map, v_failed_at_loc, Hcheck, IH.
Qed.

Lemma validate_items_length {A} (validate : JSON → V A) items :
  ∀ i0 l, validate_items validate i0 items = inr l → length l = length items.
Proof.
  induction items as [|x items IH]; intros i0 l; cbn [validate_items].
  - by intros [= <-].
  - destruct (validate x) as [?|a]; simpl;
      destruct (validate_items validate (S i0) items) as [?|l'] eqn:Hrest;
      simpl; try done.
    intros [= <-]. simpl. f_equal. eauto.
Qed.

Section Mapper.

Variable validate_str : JSON -> option string.
Variable validate_HttpUrl : JSON -> option string.
Variable validate_datetime : JSON -> option datetime.

Notation NewsArticle_fields :=
  (NewsArticle_fields validate_str validate_HttpUrl validate_datetime).
Notation NewsArticle_validate :=
  (NewsArticle_validate validate_str validate_HttpUrl validate_datetime).
Notation NewsResponse_fields :=
  (NewsResponse_fields validate_str validate_HttpUrl validate_datetime).
Notation NewsResponse_init :=
  (NewsResponse_init validate_str validate_HttpUrl validate_datetime).
Notation well_formed_article :=
  (well_formed_article validate_str validate_HttpUrl validate_datetime).
Notation well_formed_response :=
  (well_formed_response validate_str validate_HttpUrl validate_datetime).

(** A required field that is missing is reported at its key. *)
Lemma article_missing_field (d : list (string * JSON)) (f : string) :
  f ∈ REQUIRED_FIELDS → dict_get f d = None →
  {| loc := [LKey f]; type := missing |} ∈ v_errors (NewsArticle_fields d).
Proof.
  intros Hf Hget. unfold Models.NewsArticle_fields.
  rewrite !v_errors_ap. unfold REQUIRED_FIELDS in Hf.
  repeat (apply elem_of_cons in Hf as [->|Hf]); [..|by apply elem_of_nil in Hf];
    unfold required; rewrite Hget; simpl; set_solver.
Qed.

(** A field whose value its validator rejects is reported at its key. *)
Lemma article_rejected_url (d : list (string * JSON)) (v : JSON) :
  dict_get "url" d = Some v → validate_HttpUrl v = None →
  {| loc := [LKey "url"]; type := invalid |} ∈ v_errors (NewsArticle_fields d).
Proof.
  intros Hget Hv. unfold Models.NewsArticle_fields.
  rewrite !v_errors_ap. unfold required. rewrite Hget. cbv beta iota.
  unfold leaf. rewrite Hv. simpl. set_solver.
Qed.

Lemma article_rejected_published (d : list (string * JSON)) (v : JSON) :
  dict_get "published" d = Some v → validate_datetime v = None →
  {| loc := [LKey "published"]; type := invalid |}
    ∈ v_errors (NewsArticle_fields d).
Proof.
  intros Hget Hv. unfold Models.NewsArticle_fields.
  rewrite !v_errors_ap. unfold required. rewrite Hget. cbv beta iota.
  unfold leaf. rewrite Hv. simpl. set_solver.
Qed.

(** An error of the [i]-th item of [news] is an error of the response,
    under the path to that item. *)
Lemma response_item_error (d : list (string * JSON)) items i fields e :
  dict_get "news" d = Some (JArray items) →
  items !! i = Some (JObject fields) →
  e ∈ v_errors (NewsArticle_fields fields) →
  ∃ errors,
    NewsResponse_init d = Raise (PydanticValidationError errors)
    ∧ under (LKey "news") (under (LIdx i) e) ∈ errors.
Proof.
  intros Hnews Hi He.
  assert (Hin : under (LKey "news") (under (LIdx i) e)
                  ∈ v_errors (NewsResponse_fields d)).
  { unfold Models.NewsResponse_fields. rewrite v_errors_ap.
    apply elem_of_app. right. unfold required. rewrite Hnews.
    rewrite v_errors_at_loc. apply list_elem_of_fmap_2.
    apply (validate_items_errors _ items 0 i (JObject fields)); done. }
  exists (v_errors (NewsResponse_fields d)). split; [|done].
  unfold Client.NewsResponse_init.
  by rewrite (v_errors_inl _ _ Hin).
Qed.

Lemma required_ok {A} (validate : JSON → option A) name d :
  present_ok (accepts validate) name d = true →
  v_failed (required name (leaf validate) d) = false.
Proof.
  unfold present_ok, required, accepts, leaf.
  destruct (dict_get name d) as [v|]; [|done].
  by destruct (validate v).
Qed.

Lemma optional_str_ok name d :
  absent_or (null_or (accepts validate_str)) name d = true →
  v_failed (defaulted name None (optional (leaf validate_str)) d) = false.
Proof.
  unfold absent_or, defaulted, null_or, accepts, optional, leaf.
  destruct (dict_get name d) as [v|]; [|done].
  destruct v; try done; by destruct (validate_str _).
Qed.

Lemma category_ok d :
  absent_or (array_of (accepts validate_str)) "category" d = true →
  v_failed (defaulted "category" [] (list_of (leaf validate_str)) d) = false.
Proof.
  unfold absent_or, defaulted, array_of, list_of.
  destruct (dict_get "category" d) as [v|]; [|done].
  destruct v; try done. intros Hall. rewrite v_failed_at_loc.
  apply (validate_items_ok _ (accepts validate_str)); [|done].
  intros v. unfold accepts, leaf. by destruct (validate_str v).
Qed.

Lemma well_formed_article_ok v :
  well_formed_article v = true → v_failed (NewsArticle_validate v) = false.
Proof.
  destruct v; try done. simpl.
  rewrite !andb_true_iff.
  intros ((((((((H1 & H2) & H3) & H4) & H5) & H6) & H7) & H8) & H9).
  unfold Models.NewsArticle_fields. rewrite !v_failed_ap.
  rewrite !required_ok, !optional_str_ok, category_ok by done. done.
Qed.

Lemma well_formed_response_ok d :
  well_formed_response d = true → ∃ r, NewsResponse_init d = Ok r.
Proof.
  unfold Models.well_formed_response. rewrite andb_true_iff.
  intros [Hstatus Hnews].
  assert (Hok : v_failed (NewsResponse_fields d) = false).
  { unfold Models.NewsResponse_fields.
    rewrite !v_failed_ap, required_ok by done. simpl.
    unfold present_ok in Hnews. unfold required.
    destruct (dict_get "news" d) as [v|]; [|done].
    rewrite v_failed_at_loc. destruct v; try done. simpl in *.
    apply (validate_items_ok _ well_formed_article); [|done].
    apply well_formed_article_ok. }
  apply v_not_failed in Hok as [r Hr]. exists r.
  unfold Client.NewsResponse_init. by rewrite Hr.
Qed.

(** The mapper raises no member of the typed family. *)
Lemma NewsResponse_init_raises d e :
  NewsResponse_init d = Raise e → ∃ errors, e = PydanticValidationError errors.
Proof.
  unfold Client.NewsResponse_init.
  destruct (NewsResponse_fields d); intros [= <-]; eauto.
Qed.

Lemma NewsResponse_init_news d r :
  NewsResponse_init d = Ok r →
  ∃ items, dict_get "news" d = Some (JArray items)
           ∧ length (news r) = length items.
Proof.
  unfold Client.NewsResponse_init, Models.NewsResponse_fields, required.
  destruct (dict_get "status" d) as [vs|]; simpl.
  2: { destruct (dict_get "news" d) as [vn|]; simpl; [|done].
       by destruct (at_loc _ _). }
  destruct (dict_get "news" d) as [vn|]; simpl.
  2: { by destruct (at_loc _ (leaf _ _)). }
  destruct vn; simpl; try by destruct (at_loc _ (leaf _ _)).
  destruct (validate_items _ 0 items) as [?|l] eqn:Hitems; simpl;
    destruct (at_loc _ (leaf _ _)); simpl; try done.
  intros [= <-]. exists items. split; [done|]. simpl.
  by eapply validate_items_length.
Qed.

End Mapper.

(** ** The facade *)

Lemma M_bind_well_coded {A B} (m : M A) (f : A → M B) :
  (∀ w, raises_well_coded (m w).1) →
  (∀ a w, raises_well_coded (f a w).1) →
  ∀ w, raises_well_coded ((m ≫= f) w).1.
Proof.
  intros Hm Hf w. unfold mbind, M_bind. specialize (Hm w).
  destruct (m w) as [[a|e] w']; [apply Hf|done].
Qed.

Lemma validate_params_well_coded language limit category :
  raises_well_coded (validate_params language limit category).
Proof.
  unfold validate_params.
  apply raises_well_coded_bind.
  { unfold validate_language. by case_match. }
  intros _. apply raises_well_coded_bind.
  { unfold validate_limit. by case_match. }
  intros _. destruct category as [c|]; [|done].
  case_match; [|done]. unfold validate_category. by case_match.
Qed.

Section Facade.

Variable py_int : string -> option Z.
Variable py_strip : string -> string.
Variable validate_str : JSON -> option string.
Variable validate_HttpUrl : JSON -> option string.
Variable validate_datetime : JSON -> option datetime.
Variable net : list Event -> Requests.GetCall -> option Requests.Response.

Notation search_news :=
  (search_news py_int validate_str validate_HttpUrl validate_datetime net
     py_strip).
Notation NewsResponse_init :=
  (NewsResponse_init validate_str validate_HttpUrl validate_datetime).
Notation get_latest_news :=
  (get_latest_news py_int validate_str validate_HttpUrl validate_datetime net).
Notation get_category_news :=
  (get_category_news py_int validate_str validate_HttpUrl validate_datetime
     net).

Lemma request_loop_well_coded self url request_params attempts :
  ∀ w, raises_well_coded
         (request_loop py_int net self url request_params attempts w).1.
Proof.
  induction attempts as [|attempt rest IH]; intros w; [done|].
  rewrite request_loop_step.
  destruct (net _ _); [apply handle_response_well_coded|].
  destruct (attempt =? max_retries self - 1); [done|].
  destruct (sleep_cases (retry_delay self * 2 ^ attempt)
              (emit (EvGet {| Requests.get_session := session self;
                              Requests.get_url := url;
                              Requests.get_params := request_params;
                              Requests.get_timeout := REQUEST_TIMEOUT |}) w))
    as [->|[name ->]]; [apply IH|done].
Qed.

Lemma request_well_coded self endpoint request_params w :
  max_retries self = 3 →
  raises_well_coded (request py_int net self endpoint request_params w).1.
Proof. intros _. apply request_loop_well_coded. Qed.

Lemma NewsResponse_init_well_coded d :
  raises_well_coded (NewsResponse_init d).
Proof.
  destruct (NewsResponse_init d) as [r|e] eqn:He; [done|].
  by apply NewsResponse_init_raises in He as [errors ->].
Qed.

Lemma get_latest_news_well_coded self language limit w :
  max_retries (_http_client self) = 3 →
  raises_well_coded (get_latest_news self language limit w).1.
Proof.
  intros Hmax. unfold Client.get_latest_news.
  apply M_bind_well_coded.
  { intros w'. apply validate_params_well_coded. }
  intros _ w'. apply M_bind_well_coded.
  { intros w''. by apply request_well_coded. }
  intros d w''. apply NewsResponse_init_well_coded.
Qed.

Lemma get_category_news_well_coded self category language limit w :
  max_retries (_http_client self) = 3 →
  raises_well_coded (get_category_news self category language limit w).1.
Proof.
  intros Hmax. unfold Client.get_category_news.
  apply M_bind_well_coded.
  { intros w'. apply validate_params_well_coded. }
  intros _ w'. apply M_bind_well_coded.
  { intros w''. by apply request_well_coded. }
  intros d w''. apply NewsResponse_init_well_coded.
Qed.

Lemma search_news_well_coded self keywords language limit domain w :
  max_retries (_http_client self) = 3 →
  raises_well_coded (search_news self keywords language limit domain w).1.
Proof.
  intros Hmax. unfold Client.search_news.
  apply M_bind_well_coded.
  { intros w'. apply validate_params_well_coded. }
  intros _ w'. apply M_bind_well_coded.
  { intros w''. unfold lift, validate_keywords. simpl. by case_match. }
  intros _ w''. apply M_bind_well_coded.
  { intros w3. by apply request_well_coded. }
  intros d w3. apply NewsResponse_init_well_coded.
Qed.

(** A client built by the constructor has the retry budget of 3. *)
Lemma CurrentsClient_init_ok api_key base_url w self :
  (CurrentsClient_init api_key base_url w).1 = Ok self →
  ∃ key, self = {| _http_client := HTTPClient_init key base_url |}.
Proof.
  unfold CurrentsClient_init, py_or, getenv, mbind, M_bind.
  destruct api_key as [[|c key]|]; simpl;
    try (intros [= <-]; by eauto);
    destruct (environ w !! "NEWS_API_KEY") as [[|c' key']|]; simpl;
    try done; intros [= <-]; eauto.
Qed.

(** Validation comes first: when it fails, no call is made. *)
Lemma get_latest_news_invalid self language limit w e :
  validate_params language limit None = Raise e →
  get_latest_news self language limit w = (Raise e, w).
Proof.
  intros H. unfold Client.get_latest_news, mbind, M_bind, lift.
  by rewrite H.
Qed.

Lemma get_category_news_invalid self category language limit w e :
  validate_params language limit (Some category) = Raise e →
  get_category_news self category language limit w = (Raise e, w).
Proof.
  intros H. unfold Client.get_category_news, mbind, M_bind, lift.
  by rewrite H.
Qed.

(** After validation, the operation maps what the transport returns. *)
Lemma get_latest_news_valid self language limit w :
  validate_params language limit None = Ok tt →
  let out := request py_int net (_http_client self) LATEST_NEWS_ENDPOINT
               (Some {[ "language" := Requests.PStr language;
                        "limit" := Requests.PInt limit ]}) w in
  get_latest_news self language limit w =
    match out.1 with
    | Ok response_data => (NewsResponse_init response_data, out.2)
    | Raise e => (Raise e, out.2)
    end.
Proof.
  intros H. unfold Client.get_latest_news, mbind, M_bind, lift.
  rewrite H. cbv zeta. by destruct (request _ _ _ _ _ _) as [[d|e] w'].
Qed.

(** C4, as the code has it: when an item of [news] lacks one of the
    required fields id, title, description, url, language, published, or
    its url or published value is rejected by the validator of the field,
    constructing the response raises the schema library's validation
    error, with an entry located at that field of that item.  The mapper
    raises nothing else, so never a member of the typed family; on
    well-formed input it returns a response. *)
Theorem mapper_reports_field
    (d : list (string * JSON)) (items : list JSON) (i : nat)
    (fields : list (string * JSON)) :
  dict_get "news" d = Some (JArray items) →
  items !! i = Some (JObject fields) →
  (∀ f, f ∈ REQUIRED_FIELDS → dict_get f fields = None →
     ∃ errors,
       NewsResponse_init d = Raise (PydanticValidationError errors)
       ∧ {| loc := [LKey "news"; LIdx i; LKey f]; type := missing |}
           ∈ errors) ∧
  (∀ v, dict_get "url" fields = Some v → validate_HttpUrl v = None →
     ∃ errors,
       NewsResponse_init d = Raise (PydanticValidationError errors)
       ∧ {| loc := [LKey "news"; LIdx i; LKey "url"]; type := invalid |}
           ∈ errors) ∧
  (∀ v, dict_get "published" fields = Some v → validate_datetime v = None →
     ∃ errors,
       NewsResponse_init d = Raise (PydanticValidationError errors)
       ∧ {| loc := [LKey "news"; LIdx i; LKey "published"];
            type := invalid |} ∈ errors) ∧
  (∀ d' e, NewsResponse_init d' = Raise e →
           ∃ errors, e = PydanticValidationError errors) ∧
  (∀ d', well_formed_response validate_str validate_HttpUrl
           validate_datetime d' = true →
         ∃ r, NewsResponse_init d' = Ok r).
Proof.
  intros Hnews Hi. split_and!.
  - intros f Hf Hget.
    apply (response_item_error _ _ _ d items i fields
             {| loc := [LKey f]; type := missing |}); try done.
    by apply article_missing_field.
  - intros v Hget Hv.
    apply (response_item_error _ _ _ d items i fields
             {| loc := [LKey "url"]; type := invalid |}); try done.
    by eapply article_rejected_url.
  - intros v Hget Hv.
    apply (response_item_error _ _ _ d items i fields
             {| loc := [LKey "published"]; type := invalid |}); try done.
    by eapply article_rejected_published.
  - apply NewsResponse_init_raises.
  - apply well_formed_response_ok.
Qed.

(** C9: each class of the family fixes the status code of its instances:
    400 for validation errors, 401 for authentication errors, 429 for
    rate-limit errors, 500 for server errors, none for connection and
    response errors.  This holds without any HTTP exchange: for what the
    parameter validator raises and for what the constructor raises; and
    every member of the family that a request or an operation of the
    client raises carries the code of its class. *)
Theorem status_code_by_kind :
  (∀ msg fld, kind (CurrentsValidationError msg fld) = Validation
              ∧ status_code (CurrentsValidationError msg fld) = Some 400) ∧
  (∀ msg, kind (CurrentsAuthenticationError msg) = Authentication
          ∧ status_code (CurrentsAuthenticationError msg) = Some 401) ∧
  (∀ msg ra, kind (CurrentsRateLimitError msg ra) = RateLimit
             ∧ status_code (CurrentsRateLimitError msg ra) = Some 429) ∧
  (∀ msg, kind (CurrentsServerError msg) = Server
          ∧ status_code (CurrentsServerError msg) = Some 500) ∧
  (∀ msg, kind (CurrentsConnectionError msg) = Connection
          ∧ status_code (CurrentsConnectionError msg) = None) ∧
  (∀ msg, kind (CurrentsResponseError msg) = Response
          ∧ status_code (CurrentsResponseError msg) = None) ∧
  (∀ language limit category e,
     validate_params language limit category = Raise e →
     ∃ e', e = Currents e' ∧ kind e' = Validation
           ∧ status_code e' = Some 400) ∧
  (∀ api_key base_url w e,
     (CurrentsClient_init api_key base_url w).1 = Raise e →
     (CurrentsClient_init api_key base_url w).2 = w ∧
     ∃ e', e = Currents e' ∧ kind e' = Authentication
           ∧ status_code e' = Some 401) ∧
  (∀ api_key base_url endpoint request_params w,
     raises_well_coded
       (request py_int net (HTTPClient_init api_key base_url) endpoint
          request_params w).1) ∧
  (∀ api_key base_url w0 self language limit w,
     (CurrentsClient_init api_key base_url w0).1 = Ok self →
     raises_well_coded (get_latest_news self language limit w).1) ∧
  (∀ api_key base_url w0 self keywords language limit domain w,
     (CurrentsClient_init api_key base_url w0).1 = Ok self →
     raises_well_coded
       (search_news self keywords language limit domain w).1) ∧
  (∀ api_key base_url w0 self category language limit w,
     (CurrentsClient_init api_key base_url w0).1 = Ok self →
     raises_well_coded
       (get_category_news self category language limit w).1).
Proof.
  split_and!; try done.
  - intros language limit category e He.
    unfold validate_params, validate_language, validate_limit,
      validate_category in He.
    repeat (case_match; simpl in He; try discriminate);
      injection He as <-; by eexists.
  - intros api_key base_url w e.
    unfold CurrentsClient_init, py_or, getenv, mbind, M_bind.
    destruct api_key as [[|c key]|]; simpl; try done;
      destruct (environ w !! "NEWS_API_KEY") as [[|c' key']|]; simpl;
      try done; intros [= <-]; (split; [done|]); by eexists.
  - intros. by apply request_well_coded.
  - intros api_key base_url w0 self language limit w
      [key ->]%CurrentsClient_init_ok.
    by apply get_latest_news_well_coded.
  - intros api_key base_url w0 self keywords language limit domain w
      [key ->]%CurrentsClient_init_ok.
    by apply search_news_well_coded.
  - intros api_key base_url w0 self category language limit w
      [key ->]%CurrentsClient_init_ok.
    by apply get_category_news_well_coded.
Qed.

End Facade.

(** C7: constructing a client changes nothing in the world and makes no
    network call.  With no non-empty explicit credential and no non-empty
    NEWS_API_KEY in the environment it raises the authentication error.
    A non-empty explicit credential is used, whatever the environment
    holds; without one, a non-empty NEWS_API_KEY is used.  The credential
    used is the [apiKey] query parameter of the session. *)
Theorem client_init_credential
    (api_key : option string) (base_url : string) (w : World) :
  let out := CurrentsClient_init api_key base_url w in
  let ambient := environ w !! "NEWS_API_KEY" in
  out.2 = w ∧
  (truthy api_key = false → truthy ambient = false →
     out.1 = raise (CurrentsAuthenticationError
                      (ERROR_MESSAGES invalid_api_key))) ∧
  (∀ key, api_key = Some key → key ≠ "" →
     out.1 = Ok {| _http_client := HTTPClient_init key base_url |}) ∧
  (∀ key, truthy api_key = false → ambient = Some key → key ≠ "" →
     out.1 = Ok {| _http_client := HTTPClient_init key base_url |}) ∧
  (∀ key, Requests.params (session (HTTPClient_init key base_url))
            = {[ "apiKey" := key ]}) ∧
  ((∃ self, out.1 = Ok self) ↔ truthy api_key = true ∨ truthy ambient = true).
Proof.
  unfold CurrentsClient_init, py_or, getenv, mbind, M_bind. cbv zeta.
  destruct api_key as [[|c key]|]; simpl;
    destruct (environ w !! "NEWS_API_KEY") as [[|c' key']|]; simpl;
    split_and!; try done;
    try (intros ? [= <-]; done);
    try (intros ? ? [= <-]; done);
    try (split; [intros [? [=]]|intros [[=]|[=]]]; done);
    try (split; [intros _; by auto|intros _; by eexists]).
Qed.

(** C8: the [total_count] of a response is the length of its [news], for
    the empty sequence too; a response built from a JSON object counts the
    items of the object's [news] array. *)
Theorem total_count_is_length :
  (∀ r, total_count r = Z.of_nat (length (news r))) ∧
  (∀ status, total_count {| status := status; news := [] |} = 0) ∧
  (∀ validate_str validate_HttpUrl validate_datetime d r,
     NewsResponse_init validate_str validate_HttpUrl validate_datetime d
       = Ok r →
     ∃ items, dict_get "news" d = Some (JArray items)
              ∧ total_count r = Z.of_nat (length items)).
Proof.
  split_and!; try done.
  intros vs vu vd d r (items & Hnews & Hlen)%NewsResponse_init_news.
  exists items. split; [done|]. unfold total_count. by rewrite Hlen.
Qed.

(** ** The properties at concrete inputs *)

Import Instances.

Lemma handle_response_success_array :
  200 ≤ Requests.status_code (ok_response (JArray [])) < 300
  ∧ _handle_response int_ascii (ok_response (JArray []))
    = raise (CurrentsResponseError "Invalid response from API")
  ∧ (∃ e, _handle_response int_ascii (ok_response (JArray []))
          = Raise (Currents e)
          ∧ kind e = Response ∧ message e = "Invalid response from API")
  ∧ (∃ e, _handle_response int_ascii Samples.not_json = Raise (Currents e)
          ∧ kind e = Response
          ∧ message e = "Invalid response from API: Invalid JSON"
          ∧ contains "Invalid JSON" (message e) = true).
Proof.
  assert (H : 200 ≤ Requests.status_code (ok_response (JArray [])) < 300)
    by (simpl; lia).
  assert (H' : 200 ≤ Requests.status_code Samples.not_json < 300)
    by (simpl; lia).
  destruct (handle_response_success int_ascii (ok_response (JArray [])) H)
    as (H1 & _ & _ & H4).
  destruct (handle_response_success int_ascii Samples.not_json H')
    as (_ & _ & _ & H4').
  split; [exact H|]. split; [exact H1|]. split; [exact H4|exact H4'].
Defined.

Lemma rate_limit_retry_after_60 :
  int_ascii "" = None
  ∧ (∃ ra,
       handle_http_error int_ascii 429 too_many_requests
         = raise (CurrentsRateLimitError
                    (ERROR_MESSAGES rate_limit_exceeded) ra)
       ∧ ra = Some 60)
  ∧ (∃ e, handle_http_error int_ascii 429 Samples.too_many_requests_lower
          = Raise (Currents e)
          ∧ kind e = RateLimit ∧ retry_after e = Some 60).
Proof.
  split; [reflexivity|]. split.
  - destruct (rate_limit_retry_after int_ascii too_many_requests eq_refl)
      as (ra & Hraise & _ & Hra & _).
    exists ra. split; [exact Hraise|]. rewrite Hra. reflexivity.
  - destruct (rate_limit_retry_after int_ascii
                Samples.too_many_requests_lower eq_refl)
      as (ra & _ & _ & _ & _ & _ & _ & (e & He & Hk & Hra & _) & _).
    exists e. split; [exact He|]. split; [exact Hk|].
    rewrite Hra. reflexivity.
Defined.

Lemma mapper_reports_missing_id :
  dict_get "news" (news_body [article1; article_no_id])
    = Some (JArray [article1; article_no_id])
  ∧ [article1; article_no_id] !! 1%nat = Some article_no_id
  ∧ ∃ errors,
      NewsResponse_init str_strict url_http datetime_utc
        (news_body [article1; article_no_id])
        = Raise (PydanticValidationError errors)
      ∧ {| loc := [LKey "news"; LIdx 1; LKey "id"]; type := missing |}
          ∈ errors.
Proof.
  split; [reflexivity|]. split; [reflexivity|].
  refine (proj1 (mapper_reports_field str_strict url_http datetime_utc
                   (news_body [article1; article_no_id])
                   [article1; article_no_id] 1 _ eq_refl eq_refl)
            "id" _ eq_refl).
  unfold REQUIRED_FIELDS. apply list_elem_of_here.
Defined.

(** The claim of C4 as the specification words it fails on the code: a
    response whose only item lacks [id] makes [get_latest_news] raise the
    schema library's error, which is no validation error of the family. *)
Lemma missing_id_not_validation_kind :
  let net := scripted [Some (ok_response
                               (JObject (news_body [article_no_id])))] in
  let out := get_latest_news int_ascii str_strict url_http datetime_utc net
               client0 "en" 20 world0 in
  out.1 = Raise (PydanticValidationError
                   [ {| loc := [LKey "news"; LIdx 0; LKey "id"];
                        type := missing |} ])
  ∧ ¬ ∃ e, out.1 = Raise (Currents e) ∧ kind e = Validation.
Proof.
  assert (H : (get_latest_news int_ascii str_strict url_http datetime_utc
                 (scripted [Some (ok_response
                                    (JObject (news_body [article_no_id])))])
                 client0 "en" 20 world0).1
              = Raise (PydanticValidationError
                         [ {| loc := [LKey "news"; LIdx 0; LKey "id"];
                              type := missing |} ]))
    by (vm_compute; reflexivity).
  cbv zeta. split; [exact H|]. rewrite H. intros (e & [=] & _).
Qed.

(** The tests of the repository, on the model. *)

Example test_retry_mechanism :
  let net := scripted [None; None;
                       Some (ok_response (JObject (news_body [])))] in
  let out := get_latest_news int_ascii str_strict url_http datetime_utc net
               client0 "en" 20 world0 in
  out.1 = Ok {| status := "ok"; news := [] |}
  ∧ get_count (trace out.2) = 3%nat
  ∧ List.filter (λ ev, negb (is_get ev)) (trace out.2)
    = [EvSleep 1; EvSleep 2].
Proof. vm_compute. done. Qed.

Example test_max_retries_exceeded :
  let net := scripted [] in
  let out := get_latest_news int_ascii str_strict url_http datetime_utc net
               client0 "en" 20 world0 in
  out.1 = raise (CurrentsConnectionError "Failed to connect to Currents API")
  ∧ get_count (trace out.2) = 3%nat
  ∧ List.filter (λ ev, negb (is_get ev)) (trace out.2)
    = [EvSleep 1; EvSleep 2].
Proof. vm_compute. done. Qed.

Example test_get_latest_news_success :
  let net := scripted [Some (ok_response
                               (JObject (news_body [article1; article2])))] in
  let out := get_latest_news int_ascii str_strict url_http datetime_utc net
               client0 "en" 5 world0 in
  ∃ r, out.1 = Ok r ∧ status r = "ok" ∧ total_count r = 2
       ∧ title <$> news r !! 0%nat = Some "Test News Article 1"
       ∧ get_count (trace out.2) = 1%nat.
Proof. vm_compute. eexists. done. Qed.

Example test_validation_errors :
  let run := get_latest_news int_ascii str_strict url_http datetime_utc
               (scripted []) client0 in
  let invalid msg := raise (CurrentsValidationError msg None) in
  run "invalid_language" 20 world0
    = (invalid _LANGUAGE_SUPPORT_MSG, world0)
  ∧ run "en" 0 world0 = (invalid "Limit must be between 1 and 100", world0)
  ∧ run "en" 101 world0 = (invalid "Limit must be between 1 and 100", world0)
  ∧ get_category_news int_ascii str_strict url_http datetime_utc
      (scripted []) client0 "invalid_category" "en" 20 world0
    = (invalid _CATEGORY_SUPPORT_MSG, world0).
Proof. vm_compute. done. Qed.

Example test_error_statuses :
  let handled r := _handle_response int_ascii r in
  handled (error_response 401 "Unauthorized" ∅)
    = raise (CurrentsAuthenticationError "Invalid API key provided")
  ∧ handled too_many_requests
    = raise (CurrentsRateLimitError
               "API rate limit exceeded. Please try again later." (Some 60))
  ∧ handled (error_response 429 "Too Many Requests"
               {[ "Retry-After" := "soon" ]})
    = raise (CurrentsRateLimitError
               "API rate limit exceeded. Please try again later." None)
  ∧ handled (error_response 500 "Internal Server Error" ∅)
    = raise (CurrentsServerError "API server error. Please try again later.")
  ∧ handled (error_response 418 "I'm a teapot" ∅)
    = raise (CurrentsAPIError "HTTP 418: I'm a teapot" None None).
Proof. vm_compute. done. Qed.

Example test_init_without_api_key :
  CurrentsClient_init None DEFAULT_BASE_URL world0
  = (raise (CurrentsAuthenticationError "Invalid API key provided"), world0).
Proof. reflexivity. Qed.

Example test_invalid_url :
  NewsArticle_validate str_strict url_http datetime_utc article_bad_url
  = inl [ {| loc := [LKey "url"]; type := invalid |} ].
Proof. reflexivity. Qed.

Example test_search_news :
  let run := search_news int_ascii str_strict url_http datetime_utc in
  let body := JObject (news_body [article1; article2]) in
  run (scripted []) strip_ascii client0 "" "en" 20 None world0
    = (raise (CurrentsValidationError "Invalid request parameters provided"
                None), world0)
  ∧ run (scripted []) strip_ascii client0 "   " "en" 20 None world0
    = (raise (CurrentsValidationError "Invalid request parameters provided"
                None), world0)
  ∧ ∃ r, (run (scripted [Some (ok_response body)]) strip_ascii client0
            "technology" "en" 3 None world0).1 = Ok r
         ∧ length (news r) = 2%nat.
Proof. vm_compute. split_and!; try done. by eexists. Qed.

(** * Further properties of the code *)

Import Observations.

(** ** The transport, for any retry attributes *)

Section TransportAttributes.

Variable py_int : string -> option Z.
Variable net : list Event -> Requests.GetCall -> option Requests.Response.

Lemma get_count_le_cons ev evs n :
  (get_count evs ≤ n)%nat → (get_count (ev :: evs) ≤ S n)%nat.
Proof. unfold get_count. simpl. destruct (is_get ev); simpl; lia. Qed.

(** Whatever the attempts, the loop only calls [call] and sleeps, and calls
    at most once per attempt. *)
Lemma request_loop_events self url request_params attempts :
  let call := {| Requests.get_session := session self;
                 Requests.get_url := url;
                 Requests.get_params := request_params;
                 Requests.get_timeout := REQUEST_TIMEOUT |} in
  ∀ w, ∃ evs,
    trace (request_loop py_int net self url request_params attempts w).2
      = trace w ++ evs
    ∧ environ (request_loop py_int net self url request_params attempts w).2
      = environ w
    ∧ calls_only call evs
    ∧ (get_count evs ≤ length attempts)%nat.
Proof.
  intros call. induction attempts as [|attempt rest IH]; intros w.
  - exists []. simpl. rewrite app_nil_r. split_and!; try done.
    intros ev Hev. by apply elem_of_nil in Hev.
  - rewrite request_loop_step. fold call.
    assert (Hone : ∀ r : Result (list (string * JSON)), ∃ evs,
      trace (r, emit (EvGet call) w).2 = trace w ++ evs
      ∧ environ (r, emit (EvGet call) w).2 = environ w
      ∧ calls_only call evs
      ∧ (get_count evs ≤ length (attempt :: rest))%nat).
    { intros r. exists [EvGet call]. split_and!; try done.
      - intros ev ->%list_elem_of_singleton. by left.
      - simpl. unfold get_count. simpl. lia. }
    destruct (net (trace w) call) as [response|]; [apply Hone|].
    destruct (attempt =? max_retries self - 1); [apply Hone|].
    destruct (sleep_cases (retry_delay self * 2 ^ attempt)
                (emit (EvGet call) w)) as [->|[name ->]]; [|apply Hone].
    + idtac.
      * destruct (IH (emit (EvSleep (retry_delay self * 2 ^ attempt))
                        (emit (EvGet call) w)))
          as (evs & Htrace & Henv & Hcalls & Hcount).
        exists (EvGet call :: EvSleep (retry_delay self * 2 ^ attempt) :: evs).
        split_and!.
        -- rewrite Htrace. simpl. by rewrite <- !app_assoc.
        -- by rewrite Henv.
        -- intros ev [->|[->|Hev]%elem_of_cons]%elem_of_cons; eauto.
        -- simpl. apply get_count_le_cons.
           unfold get_count in *. simpl. done.
Qed.

Lemma request_events self endpoint request_params w :
  ∃ evs,
    trace (request py_int net self endpoint request_params w).2
      = trace w ++ evs
    ∧ environ (request py_int net self endpoint request_params w).2
      = environ w
    ∧ calls_only (get_call self endpoint request_params) evs
    ∧ (Z.of_nat (get_count evs) ≤ Z.max 0 (max_retries self)).
Proof.
  unfold request.
  destruct (request_loop_events self (base_url self +:+ endpoint)
              request_params (range (max_retries self)) w)
    as (evs & Htrace & Henv & Hcalls & Hcount).
  exists evs. split_and!; try done.
  unfold range in Hcount. rewrite length_map, length_seq in Hcount. lia.
Qed.

(** X1: A client whose [max_retries] is zero or negative never reaches the
    network: the loop body does not run and the statement after the loop
    raises the connection error. *)
Theorem request_without_attempts (self : HTTPClient) (endpoint : string)
    (request_params : option (gmap string Requests.ParamValue)) (w : World) :
  max_retries self ≤ 0 →
  request py_int net self endpoint request_params w
  = (raise (CurrentsConnectionError (ERROR_MESSAGES connection_error)), w).
Proof.
  intros Hmax. unfold request, range.
  replace (Z.to_nat (max_retries self)) with 0%nat by lia. done.
Qed.

Lemma slept_app evs1 evs2 : slept (evs1 ++ evs2) = slept evs1 + slept evs2.
Proof.
  induction evs1 as [|[c|d] evs1 IH]; simpl; [done| |]; rewrite ?IH; lia.
Qed.

Lemma slept_backoff self call a k :
  slept (backoff self call a k)
  = retry_delay self * 2 ^ Z.of_nat a * (2 ^ Z.of_nat k - 1).
Proof.
  revert a. induction k as [|k IH]; intros a.
  - change (backoff self call a 0) with (@nil Event). simpl. lia.
  - rewrite backoff_S. cbn [slept foldr]. fold (slept (backoff self call (S a) k)).
    rewrite IH. rewrite !Nat2Z.inj_succ, !Z.pow_succ_r by lia. lia.
Qed.

(** A sleep that [time.sleep] refuses ends the request: when the first call
    fails at the transport level, attempts remain and [retry_delay] is
    negative, the exception of [time.sleep] leaves [request] after that one
    call. *)
Lemma request_refused_sleep (self : HTTPClient) (endpoint : string)
    (request_params : option (gmap string Requests.ParamValue)) (w : World) :
  1 < max_retries self →
  - SLEEP_MAX ≤ retry_delay self < 0 →
  net (trace w) (get_call self endpoint request_params) = None →
  request py_int net self endpoint request_params w
  = (Raise (Builtin "ValueError"),
     emit (EvGet (get_call self endpoint request_params)) w).
Proof.
  intros Hmax Hdelay Hnet. unfold request, range.
  destruct (Z.to_nat (max_retries self)) as [|m] eqn:Hm; [lia|].
  cbn [seq map]. rewrite request_loop_step.
  fold (get_call self endpoint request_params). rewrite Hnet.
  replace (Z.of_nat 0 =? max_retries self - 1) with false
    by (symmetry; apply Z.eqb_neq; lia).
  unfold sleep. change (2 ^ Z.of_nat 0) with 1. rewrite Z.mul_1_r.
  replace ((retry_delay self <? - SLEEP_MAX) || (SLEEP_MAX <? retry_delay self))
    with false
    by (symmetry; apply orb_false_iff; unfold SLEEP_MAX in *; lia).
  by replace (retry_delay self <? 0) with true
    by (symmetry; apply Z.ltb_lt; lia).
Qed.

(** X2: The retry policy follows the attributes of the client, as long as
    every sleep it asks for is a time [time.sleep] accepts (not negative,
    and within its range).  With [max_retries = n], n at least 1, a request
    makes [k + 1] calls for some [k < n]: [k] calls that failed at the
    transport level, the [i]-th of them followed by a sleep of
    [retry_delay * 2 ^ i], then a last call.  The sleeps add up to
    [retry_delay * (2 ^ k - 1)].  The outcome is that of handling the
    response of the last call, or the connection error when the [n]-th call
    failed too. *)
Theorem request_follows_attributes (self : HTTPClient) (endpoint : string)
    (request_params : option (gmap string Requests.ParamValue)) (w : World)
    (n : nat) :
  max_retries self = Z.of_nat (S n) →
  (∀ i, (i < n)%nat → 0 ≤ retry_delay self * 2 ^ Z.of_nat i ≤ SLEEP_MAX) →
  let call := get_call self endpoint request_params in
  let out := request py_int net self endpoint request_params w in
  ∃ k, (k ≤ n)%nat ∧
    trace out.2 = trace w ++ backoff self call 0 k ++ [EvGet call] ∧
    get_count (backoff self call 0 k ++ [EvGet call]) = S k ∧
    slept (backoff self call 0 k ++ [EvGet call])
      = retry_delay self * (2 ^ Z.of_nat k - 1) ∧
    (∀ j, (j < k)%nat →
          net (trace w ++ backoff self call 0 j) call = None) ∧
    match net (trace w ++ backoff self call 0 k) call with
    | Some response => out.1 = _handle_response py_int response
    | None =>
        k = n ∧
        out.1 = raise (CurrentsConnectionError
                         (ERROR_MESSAGES connection_error))
    end.
Proof.
  intros Hmax Hsleep call out.
  destruct (request_loop_spec py_int net self
              (base_url self +:+ endpoint) request_params n 0 w Hmax
              ltac:(intros i Hi; apply Hsleep; lia))
    as (k & Hk & Htrace & _ & Hfail & Hlast).
  exists k. unfold out, request. rewrite Hmax.
  replace (range (Z.of_nat (S n))) with (map Z.of_nat (seq 0 (S n)))
    by (unfold range; by rewrite Nat2Z.id).
  split_and!; try done.
  - rewrite get_count_app, get_count_backoff. unfold get_count. simpl. lia.
  - rewrite slept_app, slept_backoff. simpl. lia.
Qed.

End TransportAttributes.

(** ** The response handler *)

Lemma raises_only_bind {A B} (P : CurrentsError → Prop) (m : Result A)
    (f : A → Result B) :
  raises_only P m → (∀ a, raises_only P (f a)) → raises_only P (m ≫= f).
Proof. intros Hm Hf. destruct m as [a|e]; [apply Hf|apply Hm]. Qed.

Lemma M_raises_only_bind {A B} (P : CurrentsError → Prop) (m : M A)
    (f : A → M B) :
  (∀ w, raises_only P (m w).1) →
  (∀ a w, raises_only P (f a w).1) →
  ∀ w, raises_only P ((m ≫= f) w).1.
Proof.
  intros Hm Hf w. unfold mbind, M_bind. specialize (Hm w).
  destruct (m w) as [[a|e] w']; [apply Hf|done].
Qed.

Lemma validate_params_plain language limit category :
  raises_only plain (validate_params language limit category).
Proof.
  unfold validate_params.
  apply raises_only_bind.
  { unfold validate_language. by case_match. }
  intros _. apply raises_only_bind.
  { unfold validate_limit. by case_match. }
  intros _. destruct category as [c|]; [|done].
  case_match; [|done]. unfold validate_category. by case_match.
Qed.

Section ResponseHandler.

Variable py_int : string -> option Z.

(** X3: Only the statuses 400 to 599 are errors for the handler.  A response of
    any other status (1xx, 2xx, 3xx, 600 and above) is parsed: its object is
    returned, and a body that is no JSON or no object gives the response
    error; the classifier is not consulted. *)
Theorem handle_response_other_status (response : Requests.Response) :
  ¬ (400 ≤ Requests.status_code response < 600) →
  _handle_response py_int response =
    match Requests.json response with
    | None =>
        raise (CurrentsResponseError "Invalid response from API: Invalid JSON")
    | Some (JObject d) => Ok d
    | Some _ => raise (CurrentsResponseError "Invalid response from API")
    end.
Proof.
  intros H. unfold _handle_response, Requests.raise_for_status_raises.
  replace ((400 <=? Requests.status_code response)
           && (Requests.status_code response <? 600)) with false
    by (symmetry; apply andb_false_iff; lia).
  simpl. unfold parse_response_json.
  destruct (Requests.json response) as [[]|]; done.
Qed.

(** X4: On an HTTP error status the body is never looked at: the outcome does
    not depend on what [response.json()] would give. *)
Theorem handle_response_error_ignores_body
    (response : Requests.Response) (body : option JSON) :
  400 ≤ Requests.status_code response < 600 →
  _handle_response py_int response
  = _handle_response py_int
      {| Requests.status_code := Requests.status_code response;
         Requests.reason := Requests.reason response;
         Requests.headers := Requests.headers response;
         Requests.json := body |}.
Proof.
  intros H.
  destruct (handle_response_error_status py_int response H) as (e & -> & He).
  destruct (handle_response_error_status py_int
              {| Requests.status_code := Requests.status_code response;
                 Requests.reason := Requests.reason response;
                 Requests.headers := Requests.headers response;
                 Requests.json := body |} H) as (e' & -> & He').
  simpl in He'.
  assert (Heq : @Raise unit (Currents e) = Raise (Currents e'))
    by (rewrite <- He, <- He'; reflexivity).
  by injection Heq as ->.
Qed.

(** X5: The [status_code] attribute of the error raised for an HTTP error
    status is the status of the response only for 400, 401, 429 and 500:
    every other status of 500 and above is reported as 500, and every other
    4xx status gives the base class without a status code. *)
Theorem error_status_code_attribute (response : Requests.Response) :
  let s := Requests.status_code response in
  400 ≤ s < 600 →
  ∃ e, _handle_response py_int response = Raise (Currents e)
       ∧ (status_code e = Some s ↔ s = 400 ∨ s = 401 ∨ s = 429 ∨ s = 500)
       ∧ (500 ≤ s → kind e = Server ∧ status_code e = Some 500)
       ∧ (s < 500 → s ≠ 400 → s ≠ 401 → s ≠ 429 →
          kind e = GenericAPI ∧ status_code e = None).
Proof.
  intros s H.
  destruct (handle_response_error_status py_int response H) as (e & -> & He).
  exists e. split; [done|]. fold s in He.
  unfold handle_http_error, HTTP401, HTTP429, HTTP400, HTTP500,
    raise_auth_error, _handle_rate_limit_error, raise_validation_error,
    raise_server_error, raise_generic_error, raise in He.
  destruct (Z.eqb_spec s 401) as [H401|H401].
  { injection He as <-. simpl. rewrite H401.
    split_and!; [split; intros; auto|intros; lia|intros; lia]. }
  destruct (Z.eqb_spec s 429) as [H429|H429].
  { injection He as <-. simpl. rewrite H429.
    split_and!; [split; intros; auto|intros; lia|intros; lia]. }
  destruct (Z.eqb_spec s 400) as [H400|H400].
  { injection He as <-. simpl. rewrite H400.
    split_and!; [split; intros; auto|intros; lia|intros; lia]. }
  destruct (Z.geb_spec s 500) as [H500|H500]; injection He as <-; simpl.
  - split_and!; [|done|intros; lia].
    unfold Exceptions.HTTP500.
    split; [intros [= Hs]; lia|intros [|[|[|]]]; try lia; f_equal; lia].
  - split_and!; [|intros; lia|done].
    split; [done|intros [|[|[|]]]; lia].
Qed.

Lemma handle_http_error_plain status_code response :
  raises_only plain (handle_http_error py_int status_code response).
Proof.
  unfold handle_http_error. repeat case_match; done.
Qed.

Lemma handle_response_plain response :
  raises_only plain (_handle_response py_int response).
Proof.
  unfold _handle_response.
  apply raises_only_bind.
  { case_match; [apply handle_http_error_plain|done]. }
  intros _. apply raises_only_bind.
  { unfold parse_response_json. by case_match. }
  intros v. by destruct v.
Qed.

End ResponseHandler.

(** ** The operations of the facade *)

Lemma validate_params_ok language limit category :
  validate_params language limit category = Ok tt →
  language ∈ SUPPORTED_LANGUAGES ∧ 1 ≤ limit ≤ 100 ∧
  ∀ c, category = Some c → c = "" ∨ c ∈ SUPPORTED_CATEGORIES.
Proof.
  unfold validate_params.
  rewrite validate_language_spec, validate_limit_spec.
  destruct (decide (language ∈ SUPPORTED_LANGUAGES)) as [Hl|Hl];
    [rewrite (bool_decide_eq_true_2 _ Hl)
    |by rewrite (bool_decide_eq_false_2 _ Hl)].
  destruct (decide (1 ≤ limit ≤ 100)) as [Hn|Hn];
    [rewrite (bool_decide_eq_true_2 _ Hn)
    |by rewrite (bool_decide_eq_false_2 _ Hn)].
  simpl. intros Hc. split; [done|]. split; [done|].
  intros c ->. destruct c as [|a c]; [by left|right].
  simpl in Hc. rewrite validate_category_spec in Hc.
  by case_bool_decide.
Qed.

Section Operations.

Variable py_int : string -> option Z.
Variable py_strip : string -> string.
Variable validate_str : JSON -> option string.
Variable validate_HttpUrl : JSON -> option string.
Variable validate_datetime : JSON -> option datetime.
Variable net : list Event -> Requests.GetCall -> option Requests.Response.

Notation NewsResponse_init :=
  (NewsResponse_init validate_str validate_HttpUrl validate_datetime).
Notation get_latest_news :=
  (get_latest_news py_int validate_str validate_HttpUrl validate_datetime net).
Notation get_category_news :=
  (get_category_news py_int validate_str validate_HttpUrl validate_datetime
     net).
Notation search_news :=
  (search_news py_int validate_str validate_HttpUrl validate_datetime net
     py_strip).
Notation request := (request py_int net).

Notation request_and_map :=
  (request_and_map py_int validate_str validate_HttpUrl validate_datetime net).

Lemma get_latest_news_unfold self language limit w :
  get_latest_news self language limit w =
    match validate_params language limit None with
    | Ok _ => request_and_map self LATEST_NEWS_ENDPOINT
                (latest_news_params language limit) w
    | Raise e => (Raise e, w)
    end.
Proof.
  unfold Client.get_latest_news, Observations.request_and_map, mbind, M_bind, lift,
    latest_news_params.
  destruct (validate_params language limit None) as [[]|e]; [|done].
  cbv zeta. by destruct (request _ _ _ _) as [[d|e] w'].
Qed.

Lemma get_category_news_unfold self category language limit w :
  get_category_news self category language limit w =
    match validate_params language limit (Some category) with
    | Ok _ => request_and_map self SEARCH_ENDPOINT
                (category_news_params category language limit) w
    | Raise e => (Raise e, w)
    end.
Proof.
  unfold Client.get_category_news, Observations.request_and_map, mbind, M_bind, lift,
    category_news_params.
  destruct (validate_params language limit (Some category)) as [[]|e];
    [|done].
  cbv zeta. by destruct (request _ _ _ _) as [[d|e] w'].
Qed.

Lemma search_news_unfold self keywords language limit domain w :
  search_news self keywords language limit domain w =
    match validate_params language limit None with
    | Ok _ =>
        match validate_keywords py_strip keywords with
        | Ok _ => request_and_map self SEARCH_ENDPOINT
                    (search_news_params keywords language limit domain) w
        | Raise e => (Raise e, w)
        end
    | Raise e => (Raise e, w)
    end.
Proof.
  unfold Client.search_news, Observations.request_and_map, mbind, M_bind, lift,
    search_news_params.
  destruct (validate_params language limit None) as [[]|e]; [|done].
  destruct (validate_keywords py_strip keywords) as [[]|e]; [|done].
  cbv zeta. by destruct (request _ _ _ _) as [[d|e] w'].
Qed.

Lemma request_and_map_events self endpoint request_params w :
  ∃ evs,
    trace (request_and_map self endpoint request_params w).2 = trace w ++ evs
    ∧ environ (request_and_map self endpoint request_params w).2 = environ w
    ∧ calls_only (call_of self endpoint request_params) evs
    ∧ Z.of_nat (get_count evs) ≤ Z.max 0 (max_retries (_http_client self)).
Proof.
  destruct (request_events py_int net (_http_client self) endpoint
              (Some request_params) w) as (evs & Htrace & Henv & Hcalls & Hn).
  exists evs. unfold Observations.request_and_map. cbv zeta.
  destruct (request _ _ _ _) as [[d|e] w']; simpl in *; done.
Qed.

Lemma range_pos n : 1 ≤ n → ∃ rest, range n = 0 :: rest.
Proof.
  intros Hn. unfold range.
  destruct (Z.to_nat n) as [|m] eqn:Hm; [lia|]. simpl. eauto.
Qed.

Lemma request_first_call self endpoint request_params w :
  1 ≤ max_retries self →
  ∃ evs, trace (request self endpoint request_params w).2
         = trace w ++ EvGet (get_call self endpoint request_params) :: evs.
Proof.
  intros Hmax. unfold Client.request.
  destruct (range_pos _ Hmax) as [rest ->].
  rewrite request_loop_step. fold (get_call self endpoint request_params).
  set (call := get_call self endpoint request_params).
  destruct (net (trace w) call); [by exists []|].
  destruct (0 =? max_retries self - 1); [by exists []|].
  destruct (sleep_cases (retry_delay self * 2 ^ 0) (emit (EvGet call) w))
    as [->|[name ->]]; [|by exists []].
  destruct (request_loop_events py_int net self (base_url self +:+ endpoint)
              request_params rest
              (emit (EvSleep (retry_delay self * 2 ^ 0)) (emit (EvGet call) w)))
    as (evs & -> & _).
  simpl. rewrite <- !app_assoc. simpl. eauto.
Qed.

Lemma request_first_response self endpoint request_params w response :
  1 ≤ max_retries self →
  net (trace w) (get_call self endpoint request_params) = Some response →
  request self endpoint request_params w
  = (_handle_response py_int response,
     emit (EvGet (get_call self endpoint request_params)) w).
Proof.
  intros Hmax Hnet. unfold Client.request.
  destruct (range_pos _ Hmax) as [rest ->].
  rewrite request_loop_step. fold (get_call self endpoint request_params).
  by rewrite Hnet.
Qed.

(** X6: Validation comes before the network in every operation: when the
    parameters are rejected, the operation raises the validator's error and
    the world is as before, so that nothing was called and nothing slept.
    For a search this includes keywords that are empty or blank. *)
Theorem operations_fail_fast
    (self : CurrentsClient) (language : string) (limit : Z) (w : World) :
  (∀ e, validate_params language limit None = Raise e →
     get_latest_news self language limit w = (Raise e, w)
     ∧ ∀ keywords domain,
         search_news self keywords language limit domain w = (Raise e, w)) ∧
  (∀ keywords domain,
     validate_params language limit None = Ok tt →
     keywords = "" ∨ py_strip keywords = "" →
     search_news self keywords language limit domain w
     = (raise (CurrentsValidationError (ERROR_MESSAGES invalid_parameters)
                 None), w)) ∧
  (∀ category e,
     validate_params language limit (Some category) = Raise e →
     get_category_news self category language limit w = (Raise e, w)).
Proof.
  split_and!.
  - intros e He. split; [|intros keywords domain].
    + by rewrite get_latest_news_unfold, He.
    + by rewrite search_news_unfold, He.
  - intros keywords domain Hv Hk. rewrite search_news_unfold, Hv.
    unfold validate_keywords.
    destruct Hk as [->|Hk]; [done|]. rewrite Hk. simpl.
    by rewrite orb_true_r.
  - intros category e He. by rewrite get_category_news_unfold, He.
Qed.

(** X7: What [get_latest_news] sends: every event it adds is a call to the
    base URL followed by [/latest-news], through the session of the client,
    with the parameters [language] and [limit] and a timeout of 30 seconds,
    or a sleep; there are at most [max_retries] calls; and a call is made
    only with a supported language and a limit between 1 and 100. *)
Theorem latest_news_dispatch
    (self : CurrentsClient) (language : string) (limit : Z) (w : World) :
  let out := get_latest_news self language limit w in
  ∃ evs,
    trace out.2 = trace w ++ evs ∧ environ out.2 = environ w ∧
    calls_only (call_of self "/latest-news"
                  {[ "language" := Requests.PStr language;
                     "limit" := Requests.PInt limit ]}) evs ∧
    Z.of_nat (get_count evs) ≤ Z.max 0 (max_retries (_http_client self)) ∧
    (evs ≠ [] → language ∈ SUPPORTED_LANGUAGES ∧ 1 ≤ limit ≤ 100).
Proof.
  cbv zeta. rewrite get_latest_news_unfold.
  destruct (validate_params language limit None) as [[]|e] eqn:Hv.
  - destruct (request_and_map_events self LATEST_NEWS_ENDPOINT
                (latest_news_params language limit) w)
      as (evs & Htrace & Henv & Hcalls & Hn).
    exists evs. split_and!; try done.
    intros _. apply validate_params_ok in Hv. tauto.
  - exists []. simpl. rewrite app_nil_r. split_and!; try done; [|unfold get_count; simpl; lia].
    intros ev Hev. by apply elem_of_nil in Hev.
Qed.




(** X10: The empty category is not rejected: with a supported language and a
    limit in range, [get_category_news] on the empty string goes to the
    network, with the empty string as the [category] parameter. *)
Theorem empty_category_is_dispatched
    (self : CurrentsClient) (language : string) (limit : Z) (w : World) :
  language ∈ SUPPORTED_LANGUAGES → 1 ≤ limit ≤ 100 →
  1 ≤ max_retries (_http_client self) →
  ∃ evs,
    trace (get_category_news self "" language limit w).2
    = trace w ++
      EvGet (call_of self "/search"
               {[ "category" := Requests.PStr "";
                  "language" := Requests.PStr language;
                  "limit" := Requests.PInt limit ]}) :: evs.
Proof.
  intros Hl Hn Hmax. rewrite get_category_news_unfold.
  unfold validate_params. rewrite validate_language_spec, validate_limit_spec.
  rewrite (bool_decide_eq_true_2 _ Hl), (bool_decide_eq_true_2 _ Hn).
  simpl. unfold Observations.request_and_map. cbv zeta.
  destruct (request_first_call (_http_client self) SEARCH_ENDPOINT
              (Some (category_news_params "" language limit)) w Hmax)
    as (evs & Htrace).
  exists evs.
  destruct (request _ _ _ _) as [[d|e] w']; simpl in *; done.
Qed.

(** X11: The first response decides.  With valid parameters and a retry budget
    of at least one, when the first call gets a response, of whatever
    status, [get_latest_news] makes exactly that call, sleeps never, and
    its outcome is that of handling the response and then mapping the
    object it holds. *)
Theorem latest_news_first_response
    (self : CurrentsClient) (language : string) (limit : Z) (w : World)
    (response : Requests.Response) :
  let call := call_of self "/latest-news"
                {[ "language" := Requests.PStr language;
                   "limit" := Requests.PInt limit ]} in
  language ∈ SUPPORTED_LANGUAGES → 1 ≤ limit ≤ 100 →
  1 ≤ max_retries (_http_client self) →
  net (trace w) call = Some response →
  get_latest_news self language limit w
  = (_handle_response py_int response ≫= NewsResponse_init,
     emit (EvGet call) w).
Proof.
  intros call Hl Hn Hmax Hnet. rewrite get_latest_news_unfold.
  unfold validate_params. rewrite validate_language_spec, validate_limit_spec.
  rewrite (bool_decide_eq_true_2 _ Hl), (bool_decide_eq_true_2 _ Hn).
  simpl. unfold Observations.request_and_map. cbv zeta.
  rewrite (request_first_response (_http_client self) LATEST_NEWS_ENDPOINT
             (Some (latest_news_params language limit)) w response Hmax Hnet).
  simpl. by destruct (_handle_response py_int response).
Qed.

Lemma request_loop_raises_only (P : CurrentsError → Prop) self url
    request_params attempts :
  P (CurrentsConnectionError (ERROR_MESSAGES connection_error)) →
  (∀ response, raises_only P (_handle_response py_int response)) →
  ∀ w, raises_only P
         (request_loop py_int net self url request_params attempts w).1.
Proof.
  intros Hconn Hresp. induction attempts as [|attempt rest IH]; intros w.
  - done.
  - rewrite request_loop_step. destruct (net _ _); [apply Hresp|].
    destruct (attempt =? max_retries self - 1); [done|].
    destruct (sleep_cases (retry_delay self * 2 ^ attempt)
                (emit (EvGet {| Requests.get_session := session self;
                                Requests.get_url := url;
                                Requests.get_params := request_params;
                                Requests.get_timeout := REQUEST_TIMEOUT |})
                   w))
      as [->|[name ->]]; [apply IH|done].
Qed.

Lemma request_and_map_plain self endpoint request_params w :
  raises_only plain (request_and_map self endpoint request_params w).1.
Proof.
  unfold Observations.request_and_map. cbv zeta.
  pose proof (request_loop_raises_only plain (_http_client self)
                (base_url (_http_client self) +:+ endpoint)
                (Some request_params)
                (range (max_retries (_http_client self)))
                ltac:(done) (handle_response_plain py_int) w) as Hreq.
  fold (request (_http_client self) endpoint (Some request_params) w) in Hreq.
  destruct (request _ _ _ _) as [[d|e] w']; simpl in *; [|done].
  destruct (NewsResponse_init d) as [r|e] eqn:He; [done|].
  by apply NewsResponse_init_raises in He as [errors ->].
Qed.

(** X12: No error of the family that the client raises names a field or carries
    response data, and only a rate-limit error carries a [retry_after]:
    this holds for the validator, the constructor, and the three operations
    on any client. *)
Theorem client_errors_are_plain :
  (∀ language limit category,
     raises_only plain (validate_params language limit category)) ∧
  (∀ keywords, raises_only plain (validate_keywords py_strip keywords)) ∧
  (∀ api_key base_url w,
     raises_only plain (CurrentsClient_init api_key base_url w).1) ∧
  (∀ self language limit w,
     raises_only plain (get_latest_news self language limit w).1) ∧
  (∀ self keywords language limit domain w,
     raises_only plain (search_news self keywords language limit domain w).1) ∧
  (∀ self category language limit w,
     raises_only plain (get_category_news self category language limit w).1).
Proof.
  split_and!.
  - apply validate_params_plain.
  - intros keywords. unfold validate_keywords. by case_match.
  - intros api_key base_url w.
    unfold CurrentsClient_init, py_or, getenv, mbind, M_bind.
    destruct api_key as [[|c key]|]; simpl; try done;
      destruct (environ w !! "NEWS_API_KEY") as [[|c' key']|]; simpl; done.
  - intros self language limit w. rewrite get_latest_news_unfold.
    pose proof (validate_params_plain language limit None) as Hv.
    destruct (validate_params language limit None) as [[]|e]; [|done].
    apply request_and_map_plain.
  - intros self keywords language limit domain w. rewrite search_news_unfold.
    pose proof (validate_params_plain language limit None) as Hv.
    destruct (validate_params language limit None) as [[]|e]; [|done].
    unfold validate_keywords. destruct (_ || _); [done|].
    apply request_and_map_plain.
  - intros self category language limit w.
    rewrite get_category_news_unfold.
    pose proof (validate_params_plain language limit (Some category)) as Hv.
    destruct (validate_params language limit (Some category)) as [[]|e];
      [|done].
    apply request_and_map_plain.
Qed.

End Operations.

(** ** The mapper, field by field *)

Lemma v_ap_inr {A B} (f : V (A → B)) (x : V A) (b : B) :
  f <*> x = inr b → ∃ g a, f = inr g ∧ x = inr a ∧ b = g a.
Proof. destruct f as [?|g], x as [?|a]; simpl; try done. intros [= <-]. eauto. Qed.

Lemma required_inr {A} (validate : JSON → option A) name d (x : A) :
  required name (leaf validate) d = inr x →
  dict_get name d ≫= validate = Some x.
Proof.
  unfold required, leaf. destruct (dict_get name d) as [v|]; [|done].
  simpl. destruct (validate v); simpl; [|done]. by intros [= <-].
Qed.

Lemma optional_inr (validate : JSON → option string) name d x :
  defaulted name None (optional (leaf validate)) d = inr x →
  x = dict_get name d ≫= λ v, match v with JNull => None | _ => validate v end.
Proof.
  unfold defaulted, optional, leaf.
  destruct (dict_get name d) as [v|]; simpl; [|by intros [= <-]].
  destruct v; simpl; try (by intros [= <-]);
    destruct (validate _); simpl; try done; by intros [= <-].
Qed.

Lemma validate_items_inr {A} (validate : JSON → V A) items :
  ∀ i0 l, validate_items validate i0 items = inr l →
          Forall2 (λ x a, validate x = inr a) items l.
Proof.
  induction items as [|x items IH]; intros i0 l; cbn [validate_items].
  - intros [= <-]. constructor.
  - intros (g & l' & Hg & Hl' & ->)%v_ap_inr.
    destruct (validate x) as [?|a] eqn:Hx; [done|]. simpl in Hg.
    injection Hg as <-. constructor; [done|]. eauto.
Qed.

Lemma leaf_inr {A} (validate : JSON → option A) v (a : A) :
  leaf validate v = inr a ↔ validate v = Some a.
Proof.
  unfold leaf. destruct (validate v); split; intros [= <-]; done.
Qed.

Lemma at_loc_inr {A} l (x : V A) (a : A) : at_loc l x = inr a → x = inr a.
Proof. by destruct x. Qed.

Lemma v_failed_required {A} (validate : JSON → option A) name d :
  v_failed (required name (leaf validate) d)
  = negb (present_ok (accepts validate) name d).
Proof.
  unfold present_ok, required, accepts, leaf.
  destruct (dict_get name d) as [v|]; [|done]. by destruct (validate v).
Qed.

Lemma v_failed_validate_items {A} (validate : JSON → V A)
    (check : JSON → bool) :
  (∀ v, v_failed (validate v) = negb (check v)) →
  ∀ items i0,
    v_failed (validate_items validate i0 items) = negb (forallb check items).
Proof.
  intros Hcheck. induction items as [|x items IH]; intros i0; [done|].
  cbn [validate_items forallb].
  rewrite v_failed_ap, v_failed_map, v_failed_at_loc, Hcheck, IH.
  by rewrite negb_andb.
Qed.

Section MapperFields.

Variable validate_str : JSON -> option string.
Variable validate_HttpUrl : JSON -> option string.
Variable validate_datetime : JSON -> option datetime.

Notation NewsArticle_fields :=
  (NewsArticle_fields validate_str validate_HttpUrl validate_datetime).
Notation NewsArticle_validate :=
  (NewsArticle_validate validate_str validate_HttpUrl validate_datetime).
Notation NewsResponse_fields :=
  (NewsResponse_fields validate_str validate_HttpUrl validate_datetime).
Notation NewsResponse_init :=
  (NewsResponse_init validate_str validate_HttpUrl validate_datetime).
Notation well_formed_article :=
  (well_formed_article validate_str validate_HttpUrl validate_datetime).
Notation well_formed_response :=
  (well_formed_response validate_str validate_HttpUrl validate_datetime).

Lemma v_failed_optional_str name d :
  v_failed (defaulted name None (optional (leaf validate_str)) d)
  = negb (absent_or (null_or (accepts validate_str)) name d).
Proof.
  unfold absent_or, defaulted, null_or, accepts, optional, leaf.
  destruct (dict_get name d) as [v|]; [|done].
  destruct v; try done; by destruct (validate_str _).
Qed.

Lemma v_failed_category d :
  v_failed (defaulted "category" [] (list_of (leaf validate_str)) d)
  = negb (absent_or (array_of (accepts validate_str)) "category" d).
Proof.
  unfold absent_or, defaulted, array_of, list_of.
  destruct (dict_get "category" d) as [v|]; [|done].
  destruct v; try done. rewrite v_failed_at_loc.
  apply v_failed_validate_items.
  intros v. unfold accepts, leaf. by destruct (validate_str v).
Qed.

Lemma v_failed_article v :
  v_failed (NewsArticle_validate v) = negb (well_formed_article v).
Proof.
  destruct v; try done. simpl.
  unfold Models.NewsArticle_fields. rewrite !v_failed_ap.
  rewrite !v_failed_required, !v_failed_optional_str, v_failed_category.
  simpl. by rewrite !negb_andb.
Qed.

(** X13: The mapper accepts exactly the well-formed objects: constructing the
    response succeeds if and only if [status] is present and accepted as a
    string and [news] is an array of objects each of which has its required
    fields present and accepted and its other fields absent or accepted. *)
Theorem mapper_accepts_iff_well_formed (d : list (string * JSON)) :
  (∃ r, NewsResponse_init d = Ok r) ↔ well_formed_response d = true.
Proof.
  assert (Hfail : v_failed (NewsResponse_fields d)
                  = negb (well_formed_response d)).
  { unfold Models.NewsResponse_fields, Models.well_formed_response.
    rewrite !v_failed_ap, v_failed_required. simpl.
    rewrite negb_andb. f_equal.
    unfold required, present_ok.
    destruct (dict_get "news" d) as [v|]; [|done].
    rewrite v_failed_at_loc. destruct v; try done. simpl.
    apply v_failed_validate_items. apply v_failed_article. }
  unfold Client.NewsResponse_init. split.
  - intros [r Hr]. destruct (NewsResponse_fields d); [done|].
    simpl in Hfail. by destruct (well_formed_response d).
  - intros Hwf. rewrite Hwf in Hfail.
    destruct (NewsResponse_fields d) as [?|r]; [done|]. eauto.
Qed.

(** X14: An article holds what the validators of its fields return on the
    members of the object, field by field; [author] and [image] are [None]
    when the member is absent or null, and [category] is empty when the
    member is absent. *)
Theorem article_fields_mapped (v : JSON) (a : NewsArticle) :
  NewsArticle_validate v = inr a →
  ∃ d, v = JObject d ∧
    dict_get "id" d ≫= validate_str = Some (id a) ∧
    dict_get "title" d ≫= validate_str = Some (title a) ∧
    dict_get "description" d ≫= validate_str = Some (description a) ∧
    dict_get "url" d ≫= validate_HttpUrl = Some (url a) ∧
    author a = (dict_get "author" d ≫= λ x,
                  match x with JNull => None | _ => validate_str x end) ∧
    image a = (dict_get "image" d ≫= λ x,
                 match x with JNull => None | _ => validate_str x end) ∧
    dict_get "language" d ≫= validate_str = Some (language a) ∧
    match dict_get "category" d with
    | None => category a = []
    | Some (JArray items) =>
        Forall2 (λ x s, validate_str x = Some s) items (category a)
    | Some _ => False
    end ∧
    dict_get "published" d ≫= validate_datetime = Some (published a).
Proof.
  destruct v; try done. simpl. intros H. exists members. split; [done|].
  unfold Models.NewsArticle_fields in H.
  apply v_ap_inr in H as (g9 & x9 & H & H9 & ->).
  apply v_ap_inr in H as (g8 & x8 & H & H8 & ->).
  apply v_ap_inr in H as (g7 & x7 & H & H7 & ->).
  apply v_ap_inr in H as (g6 & x6 & H & H6 & ->).
  apply v_ap_inr in H as (g5 & x5 & H & H5 & ->).
  apply v_ap_inr in H as (g4 & x4 & H & H4 & ->).
  apply v_ap_inr in H as (g3 & x3 & H & H3 & ->).
  apply v_ap_inr in H as (g2 & x2 & H & H2 & ->).
  apply v_ap_inr in H as (g1 & x1 & H & H1 & ->).
  injection H as <-. simpl.
  apply required_inr in H1, H2, H3, H4, H7, H9.
  apply optional_inr in H5, H6.
  split_and!; try done.
  unfold defaulted, list_of in H8.
  destruct (dict_get "category" members) as [c|]; [|by injection H8 as <-].
  apply at_loc_inr in H8. destruct c; try done.
  apply validate_items_inr in H8.
  eapply Forall2_impl; [exact H8|]. intros x s Hx. by apply leaf_inr.
Qed.

(** X15: The articles of a response are the items of the [news] array, in the
    order of the array, each mapped on its own; [status] is the validated
    [status] member. *)
Theorem news_order_preserved (d : list (string * JSON)) (r : NewsResponse) :
  NewsResponse_init d = Ok r →
  dict_get "status" d ≫= validate_str = Some (status r) ∧
  ∃ items, dict_get "news" d = Some (JArray items) ∧
           Forall2 (λ item a, NewsArticle_validate item = inr a)
                   items (news r).
Proof.
  unfold Client.NewsResponse_init.
  destruct (NewsResponse_fields d) as [?|r'] eqn:H; [done|].
  intros [= ->]. unfold Models.NewsResponse_fields in H.
  apply v_ap_inr in H as (g2 & x2 & H & H2 & ->).
  apply v_ap_inr in H as (g1 & x1 & H & H1 & ->).
  injection H as <-. simpl.
  apply required_inr in H1. split; [done|].
  unfold required in H2.
  destruct (dict_get "news" d) as [v|]; [|done].
  apply at_loc_inr in H2. destruct v; try done.
  exists items. split; [done|]. by eapply validate_items_inr.
Qed.

End MapperFields.

(** ** The request-parameter schemas *)

Lemma limit_field_inr validate_int d n :
  defaulted "limit" ParamModels.DEFAULT_LIMIT
    (leaf (ParamModels.int_between validate_int 1 100)) d = inr n →
  1 ≤ n ≤ 100 ∧ (dict_get "limit" d = None → n = 20).
Proof.
  unfold defaulted, leaf, ParamModels.int_between.
  destruct (dict_get "limit" d) as [v|]; simpl.
  - destruct (validate_int v) as [m|]; simpl; [|done].
    destruct (Z.leb_spec 1 m), (Z.leb_spec m 100); simpl; try done.
    intros [= <-]. split; [lia|done].
  - intros [= <-]. split; [done|]. done.
Qed.

Lemma limit_field_rejected validate_int d v n :
  dict_get "limit" d = Some v → validate_int v = Some n → ¬ (1 ≤ n ≤ 100) →
  defaulted "limit" ParamModels.DEFAULT_LIMIT
    (leaf (ParamModels.int_between validate_int 1 100)) d
  = inl [ {| loc := [LKey "limit"]; type := invalid |} ].
Proof.
  intros Hget Hv Hn. unfold defaulted, leaf, ParamModels.int_between.
  rewrite Hget, Hv.
  replace ((1 <=? n) && (n <=? 100)) with false
    by (symmetry; apply andb_false_iff; lia).
  done.
Qed.

Lemma defaulted_absent {A} name (dflt : A) validate d x :
  defaulted name dflt validate d = inr x → dict_get name d = None → x = dflt.
Proof. unfold defaulted. intros H Hget. rewrite Hget in H. by injection H. Qed.

(** X16: The schemas bound the limit as the validator of the client does: a
    [SearchParams], [LatestNewsParams] or [CategoryNewsParams] that was
    constructed has a limit between 1 and 100, which [validate_limit]
    accepts, and it is 20 when no limit was given; a limit outside 1..100
    is reported at [limit] and nothing is constructed. *)
Theorem params_limit_in_range
    (validate_str : JSON → option string) (validate_int : JSON → option Z)
    (d : list (string * JSON)) :
  (∀ p, ParamModels.SearchParams.fields validate_str validate_int d = inr p →
        1 ≤ ParamModels.SearchParams.limit p ≤ 100 ∧
        validate_limit (ParamModels.SearchParams.limit p) = Ok tt ∧
        (dict_get "limit" d = None → ParamModels.SearchParams.limit p = 20)) ∧
  (∀ p, ParamModels.LatestNewsParams.fields validate_str validate_int d
          = inr p →
        1 ≤ ParamModels.LatestNewsParams.limit p ≤ 100 ∧
        validate_limit (ParamModels.LatestNewsParams.limit p) = Ok tt ∧
        (dict_get "limit" d = None →
         ParamModels.LatestNewsParams.limit p = 20)) ∧
  (∀ p, ParamModels.CategoryNewsParams.fields validate_str validate_int d
          = inr p →
        1 ≤ ParamModels.CategoryNewsParams.limit p ≤ 100 ∧
        validate_limit (ParamModels.CategoryNewsParams.limit p) = Ok tt ∧
        (dict_get "limit" d = None →
         ParamModels.CategoryNewsParams.limit p = 20)) ∧
  (∀ v n, dict_get "limit" d = Some v → validate_int v = Some n →
          ¬ (1 ≤ n ≤ 100) →
          {| loc := [LKey "limit"]; type := invalid |}
            ∈ v_errors (ParamModels.SearchParams.fields validate_str
                          validate_int d) ∧
          {| loc := [LKey "limit"]; type := invalid |}
            ∈ v_errors (ParamModels.LatestNewsParams.fields validate_str
                          validate_int d) ∧
          {| loc := [LKey "limit"]; type := invalid |}
            ∈ v_errors (ParamModels.CategoryNewsParams.fields validate_str
                          validate_int d)).
Proof.
  assert (Hlim : ∀ n, 1 ≤ n ≤ 100 → validate_limit n = Ok tt).
  { intros n Hn. rewrite validate_limit_spec.
    by rewrite (bool_decide_eq_true_2 _ Hn). }
  split_and!.
  - intros p H. unfold ParamModels.SearchParams.fields in H.
    apply v_ap_inr in H as (g4 & x4 & H & H4 & ->).
    apply v_ap_inr in H as (g3 & x3 & H & H3 & ->).
    apply v_ap_inr in H as (g2 & x2 & H & H2 & ->).
    apply v_ap_inr in H as (g1 & x1 & H & H1 & ->).
    injection H as <-. simpl.
    apply limit_field_inr in H3 as [? ?]. auto.
  - intros p H. unfold ParamModels.LatestNewsParams.fields in H.
    apply v_ap_inr in H as (g2 & x2 & H & H2 & ->).
    apply v_ap_inr in H as (g1 & x1 & H & H1 & ->).
    injection H as <-. simpl.
    apply limit_field_inr in H2 as [? ?]. auto.
  - intros p H. unfold ParamModels.CategoryNewsParams.fields in H.
    apply v_ap_inr in H as (g3 & x3 & H & H3 & ->).
    apply v_ap_inr in H as (g2 & x2 & H & H2 & ->).
    apply v_ap_inr in H as (g1 & x1 & H & H1 & ->).
    injection H as <-. simpl.
    apply limit_field_inr in H3 as [? ?]. auto.
  - intros v n Hget Hv Hn.
    pose proof (limit_field_rejected validate_int d v n Hget Hv Hn) as Hrej.
    unfold ParamModels.SearchParams.fields,
      ParamModels.LatestNewsParams.fields,
      ParamModels.CategoryNewsParams.fields.
    rewrite !v_errors_ap, Hrej. simpl. set_solver.
Qed.

(** ** The base URL at its edges *)

Lemma rstrip_unchanged c s : ends_with c s = false → rstrip c s = s.
Proof.
  induction s as [|a s IH]; [done|]. simpl.
  destruct s as [|b s].
  - simpl. by intros ->.
  - intros H. by rewrite IH.
Qed.

Lemma rstrip_repeat c n : rstrip c (repeat_char c n) = "".
Proof.
  induction n as [|n IH]; simpl; [done|].
  by rewrite IH, Ascii.eqb_refl.
Qed.

(** X17: Normalising the base URL is idempotent and leaves a URL that does not
    end in a slash as it is.  A base URL made of slashes only, or empty,
    normalises to the empty string: the client then calls the bare
    endpoint. *)
Theorem base_url_fixpoints (api_key base_url : string) :
  let self := HTTPClient_init api_key base_url in
  HTTPClient_init api_key (Client.base_url self) = self ∧
  (ends_with "/" base_url = false → Client.base_url self = base_url) ∧
  (∀ n endpoint request_params,
     get_call (HTTPClient_init api_key (repeat_char "/" n)) endpoint
       request_params
     = {| Requests.get_session :=
            {| Requests.params := {[ "apiKey" := api_key ]} |};
          Requests.get_url := endpoint;
          Requests.get_params := request_params;
          Requests.get_timeout := 30 |}).
Proof.
  split_and!.
  - unfold HTTPClient_init. simpl.
    by rewrite rstrip_unchanged by apply rstrip_no_trailing.
  - apply rstrip_unchanged.
  - intros n endpoint request_params. unfold get_call, HTTPClient_init.
    simpl. by rewrite rstrip_repeat.
Qed.

(** ** The further properties at concrete inputs *)

Import Samples.

Lemma request_without_attempts_idle :
  max_retries idle_client ≤ 0
  ∧ request int_ascii (scripted [Some (ok_response (JObject (news_body [])))])
      idle_client "/latest-news" None world0
    = (raise (CurrentsConnectionError "Failed to connect to Currents API"),
       world0).
Proof.
  assert (H : max_retries idle_client ≤ 0) by (simpl; lia).
  split; [exact H|].
  exact (request_without_attempts int_ascii
           (scripted [Some (ok_response (JObject (news_body [])))])
           idle_client "/latest-news" None world0 H).
Defined.

Lemma request_follows_attributes_patient :
  max_retries patient_client = Z.of_nat 5
  ∧ (∀ i, (i < 4)%nat →
          0 ≤ retry_delay patient_client * 2 ^ Z.of_nat i ≤ SLEEP_MAX)
  ∧ ∃ k, (k ≤ 4)%nat
      ∧ slept (backoff patient_client
                 (get_call patient_client "/search" None) 0 k
               ++ [EvGet (get_call patient_client "/search" None)])
        = 2 * (2 ^ Z.of_nat k - 1).
Proof.
  assert (Hsleep : ∀ i, (i < 4)%nat →
            0 ≤ retry_delay patient_client * 2 ^ Z.of_nat i ≤ SLEEP_MAX).
  { intros i Hi. unfold SLEEP_MAX. simpl.
    destruct i as [|[|[|[|i]]]]; simpl; lia. }
  split; [reflexivity|]. split; [exact Hsleep|].
  destruct (request_follows_attributes int_ascii (scripted [])
              patient_client "/search" None world0 4 eq_refl Hsleep)
    as (k & Hk & _ & _ & Hslept & _).
  exists k. split; [exact Hk|exact Hslept].
Defined.

Lemma handle_response_other_status_304 :
  ¬ (400 ≤ Requests.status_code not_modified < 600)
  ∧ _handle_response int_ascii not_modified = Ok (news_body []).
Proof.
  assert (H : ¬ (400 ≤ Requests.status_code not_modified < 600))
    by (simpl; lia).
  split; [exact H|].
  exact (handle_response_other_status int_ascii not_modified H).
Defined.

Lemma handle_response_error_ignores_body_503 :
  400 ≤ Requests.status_code service_unavailable < 600
  ∧ _handle_response int_ascii service_unavailable
    = _handle_response int_ascii
        {| Requests.status_code := 503;
           Requests.reason := "Service Unavailable";
           Requests.headers := ∅;
           Requests.json := None |}.
Proof.
  assert (H : 400 ≤ Requests.status_code service_unavailable < 600)
    by (simpl; lia).
  split; [exact H|].
  exact (handle_response_error_ignores_body int_ascii service_unavailable
           None H).
Defined.

Lemma error_status_code_attribute_503 :
  400 ≤ Requests.status_code service_unavailable < 600
  ∧ ∃ e, _handle_response int_ascii service_unavailable = Raise (Currents e)
         ∧ kind e = Server ∧ status_code e = Some 500.
Proof.
  assert (H : 400 ≤ Requests.status_code service_unavailable < 600)
    by (simpl; lia).
  split; [exact H|].
  destruct (error_status_code_attribute int_ascii service_unavailable H)
    as (e & He & _ & H500 & _).
  exists e. split; [exact He|]. apply H500. simpl. lia.
Defined.

Lemma empty_category_is_dispatched_en :
  "en" ∈ SUPPORTED_LANGUAGES ∧ 1 ≤ 20 ≤ 100
  ∧ 1 ≤ max_retries (_http_client client0)
  ∧ ∃ evs,
      trace (get_category_news int_ascii str_strict url_http datetime_utc
               (scripted []) client0 "" "en" 20 world0).2
      = trace world0 ++
        EvGet (call_of client0 "/search"
                 {[ "category" := Requests.PStr "";
                    "language" := Requests.PStr "en";
                    "limit" := Requests.PInt 20 ]}) :: evs.
Proof.
  assert (Hl : "en" ∈ SUPPORTED_LANGUAGES) by apply list_elem_of_here.
  assert (Hn : 1 ≤ 20 ≤ 100) by lia.
  assert (Hmax : 1 ≤ max_retries (_http_client client0)) by (simpl; lia).
  split; [exact Hl|]. split; [exact Hn|]. split; [exact Hmax|].
  exact (empty_category_is_dispatched int_ascii str_strict url_http
           datetime_utc (scripted []) client0 "en" 20 world0 Hl Hn Hmax).
Defined.

Lemma latest_news_first_response_404 :
  "en" ∈ SUPPORTED_LANGUAGES ∧ 1 ≤ 20 ≤ 100
  ∧ 1 ≤ max_retries (_http_client client0)
  ∧ get_latest_news int_ascii str_strict url_http datetime_utc
      (scripted [Some not_found]) client0 "en" 20 world0
    = (_handle_response int_ascii not_found
         ≫= NewsResponse_init str_strict url_http datetime_utc,
       emit (EvGet (call_of client0 "/latest-news"
                      {[ "language" := Requests.PStr "en";
                         "limit" := Requests.PInt 20 ]})) world0).
Proof.
  assert (Hl : "en" ∈ SUPPORTED_LANGUAGES) by apply list_elem_of_here.
  assert (Hn : 1 ≤ 20 ≤ 100) by lia.
  assert (Hmax : 1 ≤ max_retries (_http_client client0)) by (simpl; lia).
  split; [exact Hl|]. split; [exact Hn|]. split; [exact Hmax|].
  exact (latest_news_first_response int_ascii str_strict url_http
           datetime_utc (scripted [Some not_found]) client0 "en" 20 world0
           not_found Hl Hn Hmax eq_refl).
Defined.

Lemma article_fields_mapped_article2 :
  ∃ a, NewsArticle_validate str_strict url_http datetime_utc article2 = inr a
       ∧ author a = Some "Another Author" ∧ image a = None
       ∧ Forall2 (λ x s, str_strict x = Some s)
           [JString "business"; JString "technology"] (category a).
Proof.
  eexists. split; [reflexivity|].
  destruct (article_fields_mapped str_strict url_http datetime_utc article2 _
              eq_refl)
    as (d & [= <-] & _ & _ & _ & _ & Ha & Hi & _ & Hc & _).
  split; [exact Ha|]. split; [exact Hi|]. exact Hc.
Defined.

Lemma news_order_preserved_two :
  ∃ r, NewsResponse_init str_strict url_http datetime_utc
         (news_body [article1; article2]) = Ok r
       ∧ Forall2 (λ item a,
                    NewsArticle_validate str_strict url_http datetime_utc item
                    = inr a)
           [article1; article2] (news r).
Proof.
  eexists. split; [reflexivity|].
  destruct (news_order_preserved str_strict url_http datetime_utc
              (news_body [article1; article2]) _ eq_refl)
    as (_ & items & [= <-] & Hall).
  exact Hall.
Defined.

Example test_negative_retry_delay :
  request int_ascii (scripted []) hasty_client "/latest-news" None world0
  = (Raise (Builtin "ValueError"),
     emit (EvGet (get_call hasty_client "/latest-news" None)) world0).
Proof.
  apply request_refused_sleep; [simpl; lia|unfold SLEEP_MAX; simpl; lia|done].
Qed.

Example test_header_name_case :
  _handle_response int_ascii too_many_requests_lower
  = _handle_response int_ascii too_many_requests
  ∧ ∃ e, _handle_response int_ascii too_many_requests_lower
         = Raise (Currents e) ∧ retry_after e = Some 60.
Proof. split; [reflexivity|]. eexists. split; reflexivity. Qed.
